(** * RelayConnection: the extension side of the CDP relay

    A shallow embedding of [src/extension/src/relayConnection.ts].

    The class is event driven: Chrome calls its listeners, the WebSocket
    delivers messages, and every [await] suspends the running method until
    the awaited promise settles.  The embedding makes this explicit:

    - the fields of the class are a record, [RelayConnection];
    - every call into Chrome, every [ws.send], [ws.close], [setTimeout] and
      the [onclose] callback is appended to a chronological [trace];
    - a method suspended at an [await] is a continuation ([Cont]) kept in
      the list [pending]; the environment resumes it with the event
      [Settled k r], where [r] is whatever the awaited promise settled to;
    - [step] runs one turn of the event loop.

    An [await] on a promise that is already settled (the resolved tab
    promise, an [async] method that returned without suspending) costs one
    microtask tick during which no Chrome or WebSocket event can arrive; such
    ticks are folded into the turn that causes them.  [debugLog] only writes
    to the console and is left out. *)

From Stdlib Require Import ZArith List String Ascii Bool Lia DecimalString DecimalPos.
From stdpp Require Import base option list gmap strings.
Import ListNotations.

Local Open Scope string_scope.
Local Open Scope list_scope.
Local Open Scope Z_scope.

Set Warnings "-register-all".

(** ** JavaScript values *)

(** The values that cross the relay are JSON documents plus [undefined].
    Numbers are the integers the code handles (tab identifiers, message
    identifiers, error codes). *)
Inductive JsVal : Type :=
  | JUndefined
  | JNull
  | JBool (b : bool)
  | JNum (n : Z)
  | JStr (s : string)
  | JArr (items : list JsVal)
  | JObj (props : list (string * JsVal)).

(** ToBoolean. *)
Definition truthy (v : JsVal) : bool :=
  match v with
  | JUndefined | JNull => false
  | JBool b => b
  | JNum n => negb (n =? 0)
  | JStr s => negb (String.eqb s "")
  | JArr _ | JObj _ => true
  end.

(** [a || b]. *)
Definition js_or (a b : JsVal) : JsVal := if truthy a then a else b.

Fixpoint assoc (k : string) (props : list (string * JsVal)) : JsVal :=
  match props with
  | [] => JUndefined
  | (k', v) :: rest => if String.eqb k k' then v else assoc k rest
  end.

(** [o.k] on a value that is neither [undefined] nor [null]; a primitive has
    none of the properties the code reads. *)
Definition get_prop (k : string) (o : JsVal) : JsVal :=
  match o with
  | JObj props => assoc k props
  | _ => JUndefined
  end.

(** [o?.k]. *)
Definition opt_prop (k : string) (o : JsVal) : JsVal := get_prop k o.

(** The own properties copied by a spread [{...o}]; the descriptors the code
    spreads are objects or absent. *)
Definition spread (o : JsVal) : list (string * JsVal) :=
  match o with
  | JObj props => props
  | _ => []
  end.

(** A property definition in an object literal: a later definition of the
    same key replaces the value and keeps the key's position. *)
Fixpoint set_prop (k : string) (v : JsVal) (props : list (string * JsVal))
  : list (string * JsVal) :=
  match props with
  | [] => [(k, v)]
  | (k', v') :: rest =>
      if String.eqb k k' then (k, v) :: rest else (k', v') :: set_prop k v rest
  end.

(** [JSON.stringify], as the document it writes: properties whose value is
    [undefined] are left out, and [undefined] inside an array becomes
    [null]. *)
Fixpoint JSON_stringify (v : JsVal) : JsVal :=
  match v with
  | JObj props =>
      JObj ((fix members (l : list (string * JsVal)) : list (string * JsVal) :=
               match l with
               | [] => []
               | (k, x) :: l' =>
                   match x with
                   | JUndefined => members l'
                   | _ => (k, JSON_stringify x) :: members l'
                   end
               end) props)
  | JArr items =>
      JArr ((fix elements (l : list JsVal) : list JsVal :=
               match l with
               | [] => []
               | x :: l' =>
                   match x with
                   | JUndefined => JNull :: elements l'
                   | _ => JSON_stringify x :: elements l'
                   end
               end) items)
  | _ => v
  end.

(** Whether a JSON document has the member [k]. *)
Definition has_member (k : string) (doc : JsVal) : bool :=
  match doc with
  | JObj props => existsb (fun kv => String.eqb k (fst kv)) props
  | _ => false
  end.

(** ** Strings and numbers *)

(** Number-to-string conversion of a template literal, for an integer. *)
Definition number_to_string (n : Z) : string :=
  NilZero.string_of_int (Z.to_int n).

(** [`tab-${tabId}`]. *)
Definition tab_session_id (tabId : Z) : string :=
  "tab-" +:+ number_to_string tabId.

Fixpoint substring_from (n : nat) (s : string) : string :=
  match n, s with
  | O, _ => s
  | S n', String _ s' => substring_from n' s'
  | S _, EmptyString => EmptyString
  end.

(** A string of the model is the UTF-8 text of the JavaScript string, which
    is how a literal is read here and how the text travels on the socket.
    [startsWith('tab-')] and [substring(4)] see ASCII only, where a byte is
    a code unit. *)
Definition byte_of (c : ascii) : Z := Z.of_nat (nat_of_ascii c).

(** The second and third byte of a character. *)
Definition continuation (b : Z) : bool := (128 <=? b) && (b <=? 191).

(** The white space [parseInt] skips, by code point: WhiteSpace (TAB, VT,
    FF, U+FEFF and the space separators SP, U+00A0, U+1680, U+2000 to
    U+200A, U+202F, U+205F, U+3000) and LineTerminator (LF, CR, U+2028,
    U+2029) of ECMAScript. *)
Definition is_white_space (cp : Z) : bool :=
  ((9 <=? cp) && (cp <=? 13)) || (cp =? 32) || (cp =? 160) || (cp =? 5760)
  || ((8192 <=? cp) && (cp <=? 8202)) || (cp =? 8232) || (cp =? 8233)
  || (cp =? 8239) || (cp =? 8287) || (cp =? 12288) || (cp =? 65279).

(** Leading white space is dropped, character by character; a white-space
    character takes one, two or three bytes. *)
Fixpoint trim_start (s : string) : string :=
  match s with
  | EmptyString => EmptyString
  | String c1 s1 =>
      let b1 := byte_of c1 in
      if b1 <? 128 then
        if is_white_space b1 then trim_start s1 else s
      else
        match s1 with
        | EmptyString => s
        | String c2 s2 =>
            let b2 := byte_of c2 in
            if b1 <? 224 then
              if (194 <=? b1) && continuation b2
                 && is_white_space ((b1 - 192) * 64 + (b2 - 128))
              then trim_start s2 else s
            else
              match s2 with
              | EmptyString => s
              | String c3 s3 =>
                  let b3 := byte_of c3 in
                  let cp := (b1 - 224) * 4096 + (b2 - 128) * 64 + (b3 - 128) in
                  if (b1 <? 240) && continuation b2 && continuation b3
                     && (2048 <=? cp) && is_white_space cp
                  then trim_start s3 else s
              end
        end
  end.

Definition digit_of (c : ascii) : option Z :=
  let n := nat_of_ascii c in
  if ((48 <=? n) && (n <=? 57))%nat then Some (Z.of_nat n - 48) else None.

(** The value of the longest prefix of decimal digits; [None] when the text
    does not start with a digit. *)
Fixpoint parse_digits (s : string) (acc : option Z) : option Z :=
  match s with
  | String c s' =>
      match digit_of c with
      | Some d => parse_digits s' (Some (10 * default 0 acc + d))
      | None => acc
      end
  | EmptyString => acc
  end.

(** [parseInt(s, 10)]: leading white space, an optional sign, then the
    longest run of decimal digits; [None] is NaN.  The numbers of the model
    are the integers; a JavaScript number is the same integer up to 2^53 in
    absolute value, and a tab identifier of Chrome is a 32-bit integer. *)
Definition parseInt (s : string) : option Z :=
  match trim_start s with
  | String "-" rest => Z.opp <$> parse_digits rest None
  | String "+" rest => parse_digits rest None
  | s' => parse_digits s' None
  end.

(** ** Tab identifiers, the child set and the target map *)

(** [a === b] on optional tab identifiers ([None] is [undefined]). *)
Definition strict_eq (a b : option Z) : bool :=
  match a, b with
  | None, None => true
  | Some x, Some y => x =? y
  | _, _ => false
  end.

(** ToBoolean of an optional number. *)
Definition truthy_num (a : option Z) : bool :=
  match a with
  | Some n => negb (n =? 0)
  | None => false
  end.

(** [Set<number>]: iteration follows insertion order. *)
Definition Set_has (x : option Z) (l : list Z) : bool :=
  match x with
  | Some n => existsb (Z.eqb n) l
  | None => false
  end.

Definition Set_add (n : Z) (l : list Z) : list Z :=
  if existsb (Z.eqb n) l then l else l ++ [n].

Definition Set_delete (n : Z) (l : list Z) : list Z :=
  List.filter (fun m => negb (m =? n)) l.

(** [Map<number, string>.get]; a key can be [undefined] at run time. *)
Definition Map_get (k : option Z) (m : gmap (option Z) JsVal) : JsVal :=
  default JUndefined (m !! k).

(** ** Chrome and the WebSocket *)

(** [chrome.debugger.DebuggerSession]; a [Debuggee] is one without
    [sessionId]. *)
Record DebuggerSession := {
  ds_tabId : option Z;
  ds_sessionId : JsVal;
}.

(** [{ tabId }] and [{ ...this._debuggee }]. *)
Definition debuggee_session (tabId : option Z) : DebuggerSession :=
  {| ds_tabId := tabId; ds_sessionId := JUndefined |}.

(** [chrome.tabs.Tab], as far as the code reads it. *)
Record Tab := {
  tab_id : option Z;
  tab_openerTabId : option Z;
  tab_url : JsVal;
  tab_title : JsVal;
}.

(** [chrome.debugger.onEvent], [chrome.debugger.onDetach],
    [chrome.tabs.onCreated], [chrome.tabs.onRemoved]. *)
Inductive Listener := OnEvent | OnDetach | OnCreated | OnRemoved.

(** What the connection does to the outside world. *)
Inductive Effect :=
  | ChromeDebuggerAttach (target : option Z)
  | ChromeDebuggerDetach (target : option Z)
  | ChromeDebuggerSendCommand (target : DebuggerSession) (method params : JsVal)
  | ChromeTabsQuery
  | ChromeTabsGet (tabId : Z)
  | RemoveListener (l : Listener)
  | WsSend (data : JsVal)
  | WsClose (code : Z) (reason : string)
  | SetTimeout (delay : Z)
  | Onclose.

(** What an awaited promise settles to. *)
Inductive Settlement :=
  | Fulfilled (v : JsVal)
  | FulfilledTab (tab : option Tab)
  | FulfilledTabs (tabs : list Tab)
  | Rejected (message : string).

(** ** Messages *)

Record ProtocolCommand := {
  cmd_id : Z;
  cmd_method : string;
  cmd_params : JsVal;
}.

(** [event.data]: text that [JSON.parse] rejects with [message], or text
    that decodes to a command [{id, method, params}]. *)
Inductive MessageData :=
  | Unparseable (message : string)
  | Parsed (message : ProtocolCommand).

(** What [_handleCommand] throws: its own error, a TypeError of the
    engine, or the error a Chrome promise was rejected with. *)
Inductive JsError :=
  | ErrNoTab
  | ErrType (message : string)
  | ErrBackend (message : string).

Definition no_tab_message : string :=
  "No tab is connected. Please go to the Playwright MCP extension and select the tab you want to connect to.".

(** [error.message]. *)
Definition error_message (e : JsError) : string :=
  match e with
  | ErrNoTab => no_tab_message
  | ErrType m => m
  | ErrBackend m => m
  end.

(** How [_handleCommand] completes. *)
Inductive Outcome :=
  | Return (v : JsVal)
  | Throw (e : JsError).

(** ** Suspended methods *)

(** Who awaits [_attachToNewTab]: the timer callback ([void]) or the sweep
    of [_checkForExistingChildTabs], which goes on with the remaining
    tabs. *)
Inductive Caller :=
  | FromTimer
  | FromSweep (rest : list Tab).

Inductive Cont :=
  (* _handleCommand, attachToTab *)
  | AwaitBindAttach (id : Z)
  | AwaitBindInfo (id : Z)
  (* _handleCommand, forwardCDPCommand *)
  | AwaitChildDetach (id : Z) (childTabId : Z)
  | AwaitSendCommand (id : Z)
  (* _attachToNewTab *)
  | AwaitChildAttach (tabId : Z) (caller : Caller)
  | AwaitChildInfo (tabId : Z) (caller : Caller)
  | AwaitChildTab (tabId : Z) (targetInfo : JsVal) (caller : Caller)
  | AwaitMainInfo (tabId : Z) (targetInfo : JsVal) (tab : Tab)
      (actualTargetId : JsVal) (caller : Caller)
  (* _checkForExistingChildTabs *)
  | AwaitTabsQuery
  (* setTimeout in _onTabCreated *)
  | Timer (tabId : Z).

(** ** The connection *)

Record RelayConnection := {
  _debuggee : option Z;                       (* this._debuggee.tabId *)
  ws_open : bool;                             (* readyState === OPEN *)
  listening : bool;                           (* the four listeners *)
  tab_selected : bool;                        (* _tabPromise resolved *)
  bind_waiters : list Z;                      (* commands at [await this._tabPromise] *)
  _closed : bool;
  _childTabs : list Z;
  _tabIdToTargetId : gmap (option Z) JsVal;
  _mainTabTargetId : JsVal;
  onclose : bool;                             (* a handler is assigned *)
  pending : list Cont;
  trace : list Effect;
}.

(** [new RelayConnection(ws)] on an open socket. *)
Definition constructor (handler : bool) : RelayConnection :=
  {| _debuggee := None; ws_open := true; listening := true;
     tab_selected := false; bind_waiters := []; _closed := false;
     _childTabs := []; _tabIdToTargetId := ∅; _mainTabTargetId := JUndefined;
     onclose := handler; pending := []; trace := [] |}.

(** *** Field updates *)

Definition with_debuggee (d : option Z) (c : RelayConnection) : RelayConnection :=
  {| _debuggee := d; ws_open := ws_open c; listening := listening c;
     tab_selected := tab_selected c; bind_waiters := bind_waiters c;
     _closed := _closed c; _childTabs := _childTabs c;
     _tabIdToTargetId := _tabIdToTargetId c;
     _mainTabTargetId := _mainTabTargetId c; onclose := onclose c;
     pending := pending c; trace := trace c |}.

Definition with_ws_open (b : bool) (c : RelayConnection) : RelayConnection :=
  {| _debuggee := _debuggee c; ws_open := b; listening := listening c;
     tab_selected := tab_selected c; bind_waiters := bind_waiters c;
     _closed := _closed c; _childTabs := _childTabs c;
     _tabIdToTargetId := _tabIdToTargetId c;
     _mainTabTargetId := _mainTabTargetId c; onclose := onclose c;
     pending := pending c; trace := trace c |}.

Definition with_listening (b : bool) (c : RelayConnection) : RelayConnection :=
  {| _debuggee := _debuggee c; ws_open := ws_open c; listening := b;
     tab_selected := tab_selected c; bind_waiters := bind_waiters c;
     _closed := _closed c; _childTabs := _childTabs c;
     _tabIdToTargetId := _tabIdToTargetId c;
     _mainTabTargetId := _mainTabTargetId c; onclose := onclose c;
     pending := pending c; trace := trace c |}.

Definition with_tab_selected (b : bool) (c : RelayConnection) : RelayConnection :=
  {| _debuggee := _debuggee c; ws_open := ws_open c; listening := listening c;
     tab_selected := b; bind_waiters := bind_waiters c;
     _closed := _closed c; _childTabs := _childTabs c;
     _tabIdToTargetId := _tabIdToTargetId c;
     _mainTabTargetId := _mainTabTargetId c; onclose := onclose c;
     pending := pending c; trace := trace c |}.

Definition with_bind_waiters (w : list Z) (c : RelayConnection) : RelayConnection :=
  {| _debuggee := _debuggee c; ws_open := ws_open c; listening := listening c;
     tab_selected := tab_selected c; bind_waiters := w;
     _closed := _closed c; _childTabs := _childTabs c;
     _tabIdToTargetId := _tabIdToTargetId c;
     _mainTabTargetId := _mainTabTargetId c; onclose := onclose c;
     pending := pending c; trace := trace c |}.

Definition with_closed (b : bool) (c : RelayConnection) : RelayConnection :=
  {| _debuggee := _debuggee c; ws_open := ws_open c; listening := listening c;
     tab_selected := tab_selected c; bind_waiters := bind_waiters c;
     _closed := b; _childTabs := _childTabs c;
     _tabIdToTargetId := _tabIdToTargetId c;
     _mainTabTargetId := _mainTabTargetId c; onclose := onclose c;
     pending := pending c; trace := trace c |}.

Definition with_childTabs (l : list Z) (c : RelayConnection) : RelayConnection :=
  {| _debuggee := _debuggee c; ws_open := ws_open c; listening := listening c;
     tab_selected := tab_selected c; bind_waiters := bind_waiters c;
     _closed := _closed c; _childTabs := l;
     _tabIdToTargetId := _tabIdToTargetId c;
     _mainTabTargetId := _mainTabTargetId c; onclose := onclose c;
     pending := pending c; trace := trace c |}.

Definition with_tabIdToTargetId (m : gmap (option Z) JsVal) (c : RelayConnection)
  : RelayConnection :=
  {| _debuggee := _debuggee c; ws_open := ws_open c; listening := listening c;
     tab_selected := tab_selected c; bind_waiters := bind_waiters c;
     _closed := _closed c; _childTabs := _childTabs c;
     _tabIdToTargetId := m;
     _mainTabTargetId := _mainTabTargetId c; onclose := onclose c;
     pending := pending c; trace := trace c |}.

Definition with_mainTabTargetId (v : JsVal) (c : RelayConnection) : RelayConnection :=
  {| _debuggee := _debuggee c; ws_open := ws_open c; listening := listening c;
     tab_selected := tab_selected c; bind_waiters := bind_waiters c;
     _closed := _closed c; _childTabs := _childTabs c;
     _tabIdToTargetId := _tabIdToTargetId c;
     _mainTabTargetId := v; onclose := onclose c;
     pending := pending c; trace := trace c |}.

Definition with_pending (p : list Cont) (c : RelayConnection) : RelayConnection :=
  {| _debuggee := _debuggee c; ws_open := ws_open c; listening := listening c;
     tab_selected := tab_selected c; bind_waiters := bind_waiters c;
     _closed := _closed c; _childTabs := _childTabs c;
     _tabIdToTargetId := _tabIdToTargetId c;
     _mainTabTargetId := _mainTabTargetId c; onclose := onclose c;
     pending := p; trace := trace c |}.

Definition with_trace (t : list Effect) (c : RelayConnection) : RelayConnection :=
  {| _debuggee := _debuggee c; ws_open := ws_open c; listening := listening c;
     tab_selected := tab_selected c; bind_waiters := bind_waiters c;
     _closed := _closed c; _childTabs := _childTabs c;
     _tabIdToTargetId := _tabIdToTargetId c;
     _mainTabTargetId := _mainTabTargetId c; onclose := onclose c;
     pending := pending c; trace := t |}.

(** Perform an effect. *)
Definition emit (e : Effect) (c : RelayConnection) : RelayConnection :=
  with_trace (trace c ++ [e]) c.

Definition emit_all (es : list Effect) (c : RelayConnection) : RelayConnection :=
  with_trace (trace c ++ es) c.

(** Suspend at an [await]. *)
Definition suspend (k : Cont) (c : RelayConnection) : RelayConnection :=
  with_pending (pending c ++ [k]) c.

(** Issue a Chrome call and await its promise. *)
Definition call (e : Effect) (k : Cont) (c : RelayConnection) : RelayConnection :=
  suspend k (emit e c).

(** ** Sending *)

(** [_sendMessage]: what goes out is the serialised message. *)
Definition _sendMessage (message : JsVal) (c : RelayConnection) : RelayConnection :=
  if ws_open c then emit (WsSend (JSON_stringify message)) c else c.

Definition _sendError (code : Z) (message : string) (c : RelayConnection)
  : RelayConnection :=
  _sendMessage
    (JObj [("error", JObj [("code", JNum code); ("message", JStr message)])]) c.

(** The [ProtocolResponse] that [_onMessageAsync] fills in: [result] is
    assigned when [_handleCommand] returns, [error] when it throws. *)
Definition response (id : Z) (o : Outcome) : JsVal :=
  match o with
  | Return v => JObj [("id", JNum id); ("result", v)]
  | Throw e => JObj [("id", JNum id); ("error", JStr (error_message e))]
  end.

(** The end of [_onMessageAsync], once [_handleCommand] has completed. *)
Definition respond (id : Z) (o : Outcome) (c : RelayConnection) : RelayConnection :=
  _sendMessage (response id o) c.

(** ** Closing *)

Definition remove_listeners : list Effect :=
  [RemoveListener OnEvent; RemoveListener OnDetach;
   RemoveListener OnCreated; RemoveListener OnRemoved].

(** The detach promises of [_onClose] have a [catch] that ignores the
    rejection and nothing awaits them, so they leave no continuation. *)
Definition _onClose (c : RelayConnection) : RelayConnection :=
  if _closed c then c
  else
    let c1 := with_listening false (emit_all remove_listeners (with_closed true c)) in
    let c2 := emit_all (List.map (fun childTabId => ChromeDebuggerDetach (Some childTabId))
                          (_childTabs c1)) c1 in
    let c3 := with_tabIdToTargetId ∅ (with_childTabs [] c2) in
    let c4 := emit (ChromeDebuggerDetach (_debuggee c3)) c3 in
    if onclose c4 then emit Onclose c4 else c4.

(** [close(message)]; after [ws.close] the socket is no longer OPEN. *)
Definition close (message : string) (c : RelayConnection) : RelayConnection :=
  _onClose (with_ws_open false (emit (WsClose 1000 message) c)).

(** ** Events from Chrome *)

Definition forwardCDPEvent (params : list (string * JsVal)) : JsVal :=
  JObj [("method", JStr "forwardCDPEvent"); ("params", JObj params)].

Definition _onDebuggerEvent (source : DebuggerSession) (method : string)
    (params : JsVal) (c : RelayConnection) : RelayConnection :=
  if negb (strict_eq (ds_tabId source) (_debuggee c))
     && negb (Set_has (ds_tabId source) (_childTabs c))
  then c
  else
    let sessionId :=
      if strict_eq (ds_tabId source) (_debuggee c) then ds_sessionId source
      else if truthy_num (ds_tabId source) && Set_has (ds_tabId source) (_childTabs c)
      then match ds_tabId source with
           | Some tabId => JStr (tab_session_id tabId)
           | None => JUndefined
           end
      else JUndefined in
    _sendMessage
      (forwardCDPEvent
         [("sessionId", sessionId); ("method", JStr method); ("params", params)]) c.

(** The statements [_onDebuggerDetach] and [_onTabRemoved] both run for a
    child that is gone. *)
Definition child_gone (tabId : Z) (c : RelayConnection) : RelayConnection :=
  let c1 := with_childTabs (Set_delete tabId (_childTabs c)) c in
  let targetId :=
    js_or (Map_get (Some tabId) (_tabIdToTargetId c1)) (JStr (tab_session_id tabId)) in
  let c2 := with_tabIdToTargetId (delete (Some tabId) (_tabIdToTargetId c1)) c1 in
  _sendMessage
    (forwardCDPEvent
       [("method", JStr "Target.detachedFromTarget");
        ("params", JObj [("targetId", targetId)])]) c2.

Definition _onDebuggerDetach (source : option Z) (reason : string)
    (c : RelayConnection) : RelayConnection :=
  if strict_eq source (_debuggee c)
  then with_debuggee None (close ("Debugger detached: " +:+ reason) c)
  else if truthy_num source && Set_has source (_childTabs c)
  then match source with
       | Some tabId => child_gone tabId c
       | None => c
       end
  else c.

Definition _onTabRemoved (tabId : Z) (c : RelayConnection) : RelayConnection :=
  if Set_has (Some tabId) (_childTabs c) then child_gone tabId c else c.

Definition _onTabCreated (tab : Tab) (c : RelayConnection) : RelayConnection :=
  if negb (truthy_num (_debuggee c))
     || negb (truthy_num (tab_openerTabId tab))
     || negb (strict_eq (tab_openerTabId tab) (_debuggee c))
     || negb (truthy_num (tab_id tab))
  then c
  else match tab_id tab with
       | Some tabId => suspend (Timer tabId) (emit (SetTimeout 200) c)
       | None => c
       end.

(** ** Attaching to a child tab *)

Definition getTargetInfo (target : option Z) : Effect :=
  ChromeDebuggerSendCommand (debuggee_session target)
    (JStr "Target.getTargetInfo") JUndefined.

(** The guard at the top of [_attachToNewTab]. *)
Definition attach_skipped (tabId : Z) (c : RelayConnection) : bool :=
  _closed c || Set_has (Some tabId) (_childTabs c).

(** The loop of [_checkForExistingChildTabs] from the tab it has reached:
    each matching tab is attached by [_attachToNewTab], and the loop waits
    for that call before it goes on. *)
Fixpoint sweep (tabs : list Tab) (c : RelayConnection) : RelayConnection :=
  match tabs with
  | [] => c
  | tab :: rest =>
      if truthy_num (tab_id tab) && strict_eq (tab_openerTabId tab) (_debuggee c)
      then match tab_id tab with
           | Some tabId =>
               if attach_skipped tabId c then sweep rest c
               else call (ChromeDebuggerAttach (Some tabId))
                      (AwaitChildAttach tabId (FromSweep rest)) c
           | None => sweep rest c
           end
      else sweep rest c
  end.

(** [_attachToNewTab] has returned: its caller goes on. *)
Definition returned (caller : Caller) (c : RelayConnection) : RelayConnection :=
  match caller with
  | FromTimer => c
  | FromSweep rest => sweep rest c
  end.

(** [_attachToNewTab], up to its first [await]. *)
Definition _attachToNewTab (tabId : Z) (caller : Caller) (c : RelayConnection)
  : RelayConnection :=
  if attach_skipped tabId c then returned caller c
  else call (ChromeDebuggerAttach (Some tabId)) (AwaitChildAttach tabId caller) c.

Definition _checkForExistingChildTabs (c : RelayConnection) : RelayConnection :=
  if negb (truthy_num (_debuggee c)) then c
  else call ChromeTabsQuery AwaitTabsQuery c.

(** The synthesized [Target.attachedToTarget] event. *)
Definition attachedToTarget (tabId : Z) (targetInfo : JsVal) (tab : Tab)
    (actualTargetId openerId mainTabTargetInfo : JsVal) : JsVal :=
  forwardCDPEvent
    [("method", JStr "Target.attachedToTarget");
     ("params",
       JObj [("sessionId", JStr (tab_session_id tabId));
             ("targetInfo",
               JObj (set_prop "browserContextId"
                       (js_or (opt_prop "browserContextId" mainTabTargetInfo)
                              (get_prop "browserContextId" targetInfo))
                    (set_prop "openerId" openerId
                    (set_prop "title"
                       (js_or (js_or (tab_title tab) (get_prop "title" targetInfo))
                              (JStr ""))
                    (set_prop "url"
                       (js_or (js_or (tab_url tab) (get_prop "url" targetInfo))
                              (JStr ""))
                    (set_prop "type" (JStr "page")
                    (set_prop "targetId" actualTargetId
                       (spread targetInfo))))))));
             ("waitingForDebugger", JBool false)])].

(** ** Commands from the relay *)

(** [attachToTab], past [await this._tabPromise]. *)
Definition attachToTab (id : Z) (c : RelayConnection) : RelayConnection :=
  call (ChromeDebuggerAttach (_debuggee c)) (AwaitBindAttach id) c.

(** Where a forwarded command goes. *)
Inductive Route :=
  | RouteThrow (e : JsError)
  | RouteDetach (childTabId : Z)
  | RouteSend (target : DebuggerSession).

(** The choice of [debuggerSession] for a command other than
    [Target.detachFromTarget].  Only a string has [startsWith]: any other
    truthy value makes the call throw a TypeError. *)
Definition route_command (sessionId : JsVal) (c : RelayConnection) : Route :=
  if truthy sessionId then
    match sessionId with
    | JStr sid =>
        if String.prefix "tab-" sid then
          let childTabId := parseInt (substring_from 4 sid) in
          if Set_has childTabId (_childTabs c)
          then RouteSend (debuggee_session childTabId)
          else RouteSend {| ds_tabId := _debuggee c; ds_sessionId := sessionId |}
        else RouteSend (debuggee_session (_debuggee c))
    | _ => RouteThrow (ErrType "sessionId.startsWith is not a function")
    end
  else RouteSend (debuggee_session (_debuggee c)).

(** The special handling of [Target.detachFromTarget]. *)
Definition route_detach (params : JsVal) (c : RelayConnection) : Route :=
  let targetSessionId := get_prop "sessionId" (js_or params (JObj [])) in
  if truthy targetSessionId then
    match targetSessionId with
    | JStr sid =>
        if String.prefix "tab-" sid then
          match parseInt (substring_from 4 sid) with
          | Some childTabId =>
              if Set_has (Some childTabId) (_childTabs c)
              then RouteDetach childTabId
              else RouteSend (debuggee_session (_debuggee c))
          | None => RouteSend (debuggee_session (_debuggee c))
          end
        else RouteSend (debuggee_session (_debuggee c))
    | _ => RouteThrow (ErrType "targetSessionId.startsWith is not a function")
    end
  else RouteSend (debuggee_session (_debuggee c)).

Definition is_string (s : string) (v : JsVal) : bool :=
  match v with
  | JStr s' => String.eqb s' s
  | _ => false
  end.

(** The [forwardCDPCommand] branch, up to its first [await]. *)
Definition forwardCDPCommand (id : Z) (message_params : JsVal) (c : RelayConnection)
  : RelayConnection :=
  match message_params with
  | JUndefined =>
      respond id
        (Throw (ErrType ("Cannot destructure property 'sessionId' of 'message.params'"
                         +:+ " as it is undefined."))) c
  | JNull =>
      respond id
        (Throw (ErrType ("Cannot destructure property 'sessionId' of 'message.params'"
                         +:+ " as it is null."))) c
  | _ =>
      let sessionId := get_prop "sessionId" message_params in
      let method := get_prop "method" message_params in
      let params := get_prop "params" message_params in
      let route :=
        if is_string "Target.detachFromTarget" method
        then route_detach params c
        else route_command sessionId c in
      match route with
      | RouteThrow e => respond id (Throw e) c
      | RouteDetach childTabId =>
          call (ChromeDebuggerDetach (Some childTabId)) (AwaitChildDetach id childTabId) c
      | RouteSend target =>
          call (ChromeDebuggerSendCommand target method params) (AwaitSendCommand id) c
      end
  end.

(** [_handleCommand], up to its first [await], together with the response
    [_onMessageAsync] sends when the command completes without one. *)
Definition _handleCommand (message : ProtocolCommand) (c : RelayConnection)
  : RelayConnection :=
  if String.eqb (cmd_method message) "attachToTab" then
    if tab_selected c then attachToTab (cmd_id message) c
    else with_bind_waiters (bind_waiters c ++ [cmd_id message]) c
  else if negb (truthy_num (_debuggee c)) then
    respond (cmd_id message) (Throw ErrNoTab) c
  else if String.eqb (cmd_method message) "forwardCDPCommand" then
    forwardCDPCommand (cmd_id message) (cmd_params message) c
  else respond (cmd_id message) (Return JUndefined) c.

Definition _onMessageAsync (data : MessageData) (c : RelayConnection)
  : RelayConnection :=
  match data with
  | Unparseable m => _sendError (-32700) ("Error parsing message: " +:+ m) c
  | Parsed message => _handleCommand message c
  end.

(** [setTabId]: the sweep starts (it suspends at [chrome.tabs.query]), then
    the commands that waited on the tab promise go on, in order. *)
Definition setTabId (tabId : Z) (c : RelayConnection) : RelayConnection :=
  let c1 := with_tab_selected true (with_debuggee (Some tabId) c) in
  let c2 := _checkForExistingChildTabs c1 in
  fold_left (fun acc id => attachToTab id acc) (bind_waiters c2)
    (with_bind_waiters [] c2).

(** ** Resuming after an [await] *)

(** The code after each [await], run when the awaited promise settles.
    [None]: the promise cannot settle to a value of that kind. *)
Definition resume (k : Cont) (r : Settlement) (c : RelayConnection)
  : option RelayConnection :=
  match k, r with
  (* await chrome.debugger.attach(this._debuggee, '1.3') *)
  | AwaitBindAttach id, Fulfilled _ =>
      Some (call (getTargetInfo (_debuggee c)) (AwaitBindInfo id) c)
  | AwaitBindAttach id, Rejected m => Some (respond id (Throw (ErrBackend m)) c)
  (* await chrome.debugger.sendCommand(this._debuggee, 'Target.getTargetInfo') *)
  | AwaitBindInfo id, Fulfilled result =>
      let targetInfo := opt_prop "targetInfo" result in
      let c1 :=
        if truthy (opt_prop "targetId" targetInfo)
        then with_tabIdToTargetId
               (<[_debuggee c := get_prop "targetId" targetInfo]> (_tabIdToTargetId c))
               (with_mainTabTargetId (get_prop "targetId" targetInfo) c)
        else c in
      Some (respond id (Return (JObj [("targetInfo", targetInfo)])) c1)
  | AwaitBindInfo id, Rejected m => Some (respond id (Throw (ErrBackend m)) c)
  (* await chrome.debugger.detach({ tabId: childTabId }) *)
  | AwaitChildDetach id childTabId, Fulfilled _ =>
      let c1 := with_childTabs (Set_delete childTabId (_childTabs c)) c in
      let c2 := with_tabIdToTargetId (delete (Some childTabId) (_tabIdToTargetId c1)) c1 in
      Some (respond id (Return (JObj [])) c2)
  | AwaitChildDetach id _, Rejected m => Some (respond id (Throw (ErrBackend m)) c)
  (* return await chrome.debugger.sendCommand(debuggerSession, method, params) *)
  | AwaitSendCommand id, Fulfilled result => Some (respond id (Return result) c)
  | AwaitSendCommand id, Rejected m => Some (respond id (Throw (ErrBackend m)) c)
  (* await chrome.debugger.attach(newDebuggee, '1.3') *)
  | AwaitChildAttach tabId caller, Fulfilled _ =>
      let c1 := with_childTabs (Set_add tabId (_childTabs c)) c in
      Some (call (getTargetInfo (Some tabId)) (AwaitChildInfo tabId caller) c1)
  | AwaitChildAttach _ caller, Rejected _ => Some (returned caller c)
  (* await chrome.debugger.sendCommand(newDebuggee, 'Target.getTargetInfo') *)
  | AwaitChildInfo tabId caller, Fulfilled targetInfoResult =>
      let targetInfo := opt_prop "targetInfo" targetInfoResult in
      if negb (truthy targetInfo) then Some (returned caller c)
      else Some (call (ChromeTabsGet tabId) (AwaitChildTab tabId targetInfo caller) c)
  | AwaitChildInfo _ caller, Rejected _ => Some (returned caller c)
  (* await chrome.tabs.get(tabId) *)
  | AwaitChildTab tabId targetInfo caller, FulfilledTab tab =>
      match tab with
      | Some tab =>
          if negb (truthy_num (_debuggee c)) then Some (returned caller c)
          else
            let actualTargetId :=
              js_or (get_prop "targetId" targetInfo) (JStr (tab_session_id tabId)) in
            let c1 :=
              with_tabIdToTargetId
                (<[Some tabId := actualTargetId]> (_tabIdToTargetId c)) c in
            Some (call (getTargetInfo (_debuggee c1))
                    (AwaitMainInfo tabId targetInfo tab actualTargetId caller) c1)
      | None => Some (returned caller c)
      end
  | AwaitChildTab _ _ caller, Rejected _ => Some (returned caller c)
  (* await chrome.debugger.sendCommand(this._debuggee, 'Target.getTargetInfo') *)
  | AwaitMainInfo tabId targetInfo tab actualTargetId caller, Fulfilled mainTabTargetInfoResult =>
      let mainTabTargetInfo := opt_prop "targetInfo" mainTabTargetInfoResult in
      let openerId :=
        js_or (_mainTabTargetId c) (opt_prop "targetId" mainTabTargetInfo) in
      Some (returned caller
              (_sendMessage
                 (attachedToTarget tabId targetInfo tab actualTargetId openerId
                    mainTabTargetInfo) c))
  | AwaitMainInfo _ _ _ _ caller, Rejected _ => Some (returned caller c)
  (* await chrome.tabs.query({}) *)
  | AwaitTabsQuery, FulfilledTabs tabs => Some (sweep tabs c)
  | AwaitTabsQuery, Rejected _ => Some c
  | _, _ => None
  end.

(** ** The event loop *)

Inductive Event :=
  | SetTabId (tabId : Z)
  | Close (message : string)
  | WsOnClose
  | WsOnMessage (data : MessageData)
  | DebuggerOnEvent (source : DebuggerSession) (method : string) (params : JsVal)
  | DebuggerOnDetach (source : option Z) (reason : string)
  | TabsOnCreated (tab : Tab)
  | TabsOnRemoved (tabId : Z)
  | Settled (k : nat) (r : Settlement)
  | TimerFired (k : nat).

(** One turn.  Chrome calls a listener only while it is registered, and a
    WebSocket dispatches messages only while it is OPEN.  [Settled k r]
    settles the promise the [k]-th suspended method awaits. *)
Definition step (c : RelayConnection) (e : Event) : RelayConnection :=
  match e with
  | SetTabId tabId => setTabId tabId c
  | Close message => close message c
  | WsOnClose => _onClose (with_ws_open false c)
  | WsOnMessage data => if ws_open c then _onMessageAsync data c else c
  | DebuggerOnEvent source method params =>
      if listening c then _onDebuggerEvent source method params c else c
  | DebuggerOnDetach source reason =>
      if listening c then _onDebuggerDetach source reason c else c
  | TabsOnCreated tab => if listening c then _onTabCreated tab c else c
  | TabsOnRemoved tabId => if listening c then _onTabRemoved tabId c else c
  | Settled k r =>
      match pending c !! k with
      | Some cont =>
          match resume cont r (with_pending (delete k (pending c)) c) with
          | Some c' => c'
          | None => c
          end
      | None => c
      end
  | TimerFired k =>
      match pending c !! k with
      | Some (Timer tabId) =>
          _attachToNewTab tabId FromTimer (with_pending (delete k (pending c)) c)
      | _ => c
      end
  end.

Definition run (c : RelayConnection) (events : list Event) : RelayConnection :=
  fold_left step events c.

(** The states a connection can be in. *)
Definition reachable (c : RelayConnection) : Prop :=
  exists handler events, c = run (constructor handler) events.

(** ** Notions used in the statements *)

(** *** Counting effects *)

(** How many effects of a trace satisfy [p]. *)
Definition count_effect (p : Effect -> bool) (t : list Effect) : nat :=
  length (List.filter p t).

Definition is_onclose (e : Effect) : bool :=
  match e with
  | Onclose => true
  | _ => false
  end.

Definition is_remove_listener (e : Effect) : bool :=
  match e with
  | RemoveListener _ => true
  | _ => false
  end.

(** Effects only [_onClose] has. *)
Definition is_teardown (e : Effect) : bool :=
  is_onclose e || is_remove_listener e.

(** A call of [chrome.debugger.attach] on [target]. *)
Definition is_attach (target : option Z) (e : Effect) : bool :=
  match e with
  | ChromeDebuggerAttach target' => strict_eq target target'
  | _ => false
  end.

(** *** Teardown *)

(** The teardown as the specification lists it: unsubscribe, detach every
    child, detach the primary target, notify. *)
Definition teardown_effects (c : RelayConnection) : list Effect :=
  remove_listeners
  ++ List.map (fun childTabId => ChromeDebuggerDetach (Some childTabId)) (_childTabs c)
  ++ [ChromeDebuggerDetach (_debuggee c)]
  ++ (if onclose c then [Onclose] else []).

(** The number of teardown effects in the trace tells whether the connection
    is closed. *)
Definition teardown_once (handler : bool) (c : RelayConnection) : Prop :=
  onclose c = handler
  /\ count_effect is_onclose (trace c) = (if _closed c && handler then 1 else 0)%nat
  /\ count_effect is_remove_listener (trace c) = (if _closed c then 4 else 0)%nat.

(** *** What is sent *)

(** A document with both a [result] and an [error] member. *)
Definition has_both (doc : JsVal) : bool :=
  has_member "result" doc && has_member "error" doc.

(** Nothing the connection has sent carries both [result] and [error]. *)
Definition sends_well_formed (c : RelayConnection) : Prop :=
  forall doc, In (WsSend doc) (trace c) -> has_both doc = false.

(** The response to a command that failed because no tab is selected. *)
Definition not_ready_response (id : Z) : JsVal :=
  JObj [("id", JNum id); ("error", JStr no_tab_message)].

(** The command completed with [undefined]. *)
Definition returns_undefined (o : Outcome) : bool :=
  match o with
  | Return JUndefined => true
  | _ => false
  end.

(** The descriptor inside a [Target.attachedToTarget] event. *)
Definition event_targetInfo (event : JsVal) : JsVal :=
  get_prop "targetInfo" (get_prop "params" (get_prop "params" event)).

(** The [id] member of a document sent on the socket. *)
Definition response_id (e : Effect) : option Z :=
  match e with
  | WsSend doc =>
      match get_prop "id" doc with
      | JNum id => Some id
      | _ => None
      end
  | _ => None
  end.

(** *** Turns *)

(** An effect of a turn that is no teardown; what it sends never has both
    members. *)
Definition ordinary (e : Effect) : bool :=
  negb (is_teardown e)
  && match e with
     | WsSend doc => negb (has_both doc)
     | _ => true
     end.

(** [c'] comes from [c] by a turn that is no teardown: the closed flag and
    the handler are as before, and the trace grew by ordinary effects. *)
Definition quiet (c c' : RelayConnection) : Prop :=
  _closed c' = _closed c /\ onclose c' = onclose c /\
  exists es, trace c' = trace c ++ es /\ Forall (fun e => ordinary e = true) es.

(** [c'] is [c] after a [chrome.debugger.sendCommand] against the tab
    [handle], awaited on behalf of the command [id]. *)
Definition sends_to (handle : option Z) (id : Z) (method params : JsVal)
    (c c' : RelayConnection) : Prop :=
  exists sessionId,
    c' = call (ChromeDebuggerSendCommand
                 {| ds_tabId := handle; ds_sessionId := sessionId |} method params)
           (AwaitSendCommand id) c.

(** The child set and the target map. *)
Definition bookkeeping (c : RelayConnection) : list Z * gmap (option Z) JsVal :=
  (_childTabs c, _tabIdToTargetId c).

(** *** Commands and their answers *)

(** The command a suspended method answers, if any. *)
Definition cont_id (k : Cont) : option Z :=
  match k with
  | AwaitBindAttach id | AwaitBindInfo id | AwaitChildDetach id _
  | AwaitSendCommand id => Some id
  | _ => None
  end.

(** The identifiers of the commands in a history. *)
Definition command_ids (events : list Event) : list Z :=
  flat_map (fun e => match e with
                     | WsOnMessage (Parsed message) => [cmd_id message]
                     | _ => []
                     end) events.

(** Every command that waits, is suspended or was answered is one of
    [ids]. *)
Definition paired (ids : list Z) (c : RelayConnection) : Prop :=
  (forall id, In id (bind_waiters c) -> In id ids)
  /\ (forall k id, In k (pending c) -> cont_id k = Some id -> In id ids)
  /\ (forall e id, In e (trace c) -> response_id e = Some id -> In id ids).

(** The arrival of an [attachToTab] command. *)
Definition is_attachToTab (e : Event) : bool :=
  match e with
  | WsOnMessage (Parsed message) => String.eqb (cmd_method message) "attachToTab"
  | _ => false
  end.

(** *** Messages and histories used as examples *)


(** A [forwardCDPCommand] message. *)
Definition forward (id : Z) (sessionId method params : JsVal) : MessageData :=
  Parsed {| cmd_id := id; cmd_method := "forwardCDPCommand";
            cmd_params := JObj [("sessionId", sessionId); ("method", method);
                                ("params", params)] |}.

(** An [attachToTab] message. *)
Definition attach_to_tab (id : Z) : MessageData :=
  Parsed {| cmd_id := id; cmd_method := "attachToTab"; cmd_params := JUndefined |}.

(** The [attachToTab] commands with the identifiers [ids], in order. *)
Definition attach_commands (ids : list Z) : list Event :=
  List.map (fun id => WsOnMessage (attach_to_tab id)) ids.

(** A tab opened by tab 1. *)
Definition popup : Tab :=
  {| tab_id := Some 2; tab_openerTabId := Some 1;
     tab_url := JStr "https://example.com/popup"; tab_title := JStr "Popup" |}.

(** The answer to [Target.getTargetInfo]. *)
Definition target_info (targetId browserContextId : string) : JsVal :=
  JObj [("targetInfo",
          JObj [("targetId", JStr targetId); ("type", JStr "page");
                ("browserContextId", JStr browserContextId)])].

(** Tab 1 is selected and the sweep finds the popup: the attach call for
    it is in flight. *)
Definition popup_found : list Event :=
  [SetTabId 1; Settled 0 (FulfilledTabs [popup])].

(** The popup is attached and announced; [attachToTab] was never sent. *)
Definition popup_attached : list Event :=
  popup_found
  ++ [Settled 0 (Fulfilled JUndefined);
      Settled 0 (Fulfilled (target_info "T2" "B2"));
      Settled 0 (FulfilledTab (Some popup));
      Settled 0 (Fulfilled (target_info "T1" "B1"))].


(** The connection is closed while the attach call for the popup is in
    flight; the call then succeeds and the attach procedure goes on. *)
Definition closed_during_attach : list Event :=
  popup_found
  ++ [Close "done";
      Settled 0 (Fulfilled JUndefined);
      Settled 0 (Fulfilled (target_info "T2" "B2"));
      Settled 0 (FulfilledTab (Some popup))].

(** ** Notions used for the rest of the class *)

(** A document written to the socket. *)
Definition is_send (e : Effect) : bool :=
  match e with
  | WsSend _ => true
  | _ => false
  end.

(** Whether the sweep attaches to [tab]: it has an identifier, the selected
    tab opened it, and [_attachToNewTab] does not skip it. *)
Definition attachable (c : RelayConnection) (tab : Tab) : bool :=
  truthy_num (tab_id tab)
  && strict_eq (tab_openerTabId tab) (_debuggee c)
  && match tab_id tab with
     | Some tabId => negb (attach_skipped tabId c)
     | None => false
     end.

(** The synthesized [Target.detachedFromTarget] event. *)
Definition detachedFromTarget (targetId : JsVal) : JsVal :=
  forwardCDPEvent
    [("method", JStr "Target.detachedFromTarget");
     ("params", JObj [("targetId", targetId)])].

(** The answer to text that is no JSON. *)
Definition parse_error (message : string) : JsVal :=
  JObj [("error", JObj [("code", JNum (-32700));
                        ("message", JStr ("Error parsing message: " +:+ message))])].

(** Messages whose text is no JSON. *)
Definition malformed (texts : list string) : list Event :=
  List.map (fun message => WsOnMessage (Unparseable message)) texts.

(** Whether Chrome's listeners are registered, the socket is open, and the
    connection is closed. *)
Definition flags (c : RelayConnection) : bool * bool * bool :=
  (listening c, ws_open c, _closed c).

(** [c'] comes from [c] by a turn that leaves the flags alone and, when the
    socket is not open, sends nothing. *)
Definition calm (c c' : RelayConnection) : Prop :=
  flags c' = flags c
  /\ exists es, trace c' = trace c ++ es
       /\ (ws_open c = false -> Forall (fun e => is_send e = false) es).

(** [c'] comes from [c] by a turn that closes: the socket is no longer open,
    the connection is closed, and nothing was sent. *)
Definition closing (c c' : RelayConnection) : Prop :=
  ws_open c' = false
  /\ _closed c' = true
  /\ listening c' = (if _closed c then listening c else false)
  /\ exists es, trace c' = trace c ++ es /\ Forall (fun e => is_send e = false) es.

(** The listeners are registered and the socket is open exactly while the
    connection is not closed. *)
Definition open_or_closed (c : RelayConnection) : Prop :=
  listening c = negb (_closed c) /\ ws_open c = negb (_closed c).

(** The connection is closed while an attach call is in flight, after which
    Chrome and the relay go on talking to it. *)
Definition after_close : list Event :=
  [Settled 0 (Fulfilled JUndefined);
   DebuggerOnEvent (debuggee_session (Some 1)) "Page.loadEventFired" (JObj []);
   WsOnMessage (forward 5 JUndefined (JStr "Runtime.enable") JUndefined);
   TabsOnRemoved 2;
   Settled 0 (Fulfilled (target_info "T2" "B2"))].

(** A document that answers the command [id]. *)
Definition answers (id : Z) (e : Effect) : bool :=
  match response_id e with
  | Some id' => id =? id'
  | None => false
  end.

(** A suspended method that will answer the command [id]. *)
Definition awaits (id : Z) (k : Cont) : bool :=
  match cont_id k with
  | Some id' => id =? id'
  | None => false
  end.

(** How often the command identifier [id] occurs in the connection: among
    the commands waiting for the tab, among the suspended methods, and among
    the answers sent. *)
Definition owed (id : Z) (c : RelayConnection) : nat :=
  (length (List.filter (Z.eqb id) (bind_waiters c))
   + length (List.filter (awaits id) (pending c))
   + count_effect (answers id) (trace c))%nat.

(** How many commands of a history have the identifier [id]. *)
Definition commands_with (id : Z) (events : list Event) : nat :=
  length (List.filter (Z.eqb id) (command_ids events)).

(** Whether settling the promise of the suspended method [k] writes the
    target-map entry of the tab [tabId] or puts the tab into the child set:
    the attach call or the tab lookup of an attach procedure for this tab,
    or the descriptor of the selected tab arriving for [attachToTab] while
    this tab is the selected one. *)
Definition cont_touches (tabId : Z) (c : RelayConnection) (k : Cont) : bool :=
  match k with
  | AwaitChildAttach t _ | AwaitChildTab t _ _ => t =? tabId
  | AwaitBindInfo _ => strict_eq (_debuggee c) (Some tabId)
  | _ => false
  end.

Definition touches (tabId : Z) (c : RelayConnection) (e : Event) : bool :=
  match e with
  | Settled k _ =>
      match pending c !! k with
      | Some cont => cont_touches tabId c cont
      | None => false
      end
  | _ => false
  end.

(** No turn of the history [events], run from [c], is such a turn. *)
Fixpoint untouched (tabId : Z) (c : RelayConnection) (events : list Event) : bool :=
  match events with
  | [] => true
  | e :: events' => negb (touches tabId c e) && untouched tabId (step c e) events'
  end.


(** The popup is announced as "T2"; then its tab is selected as the
    primary one and [attachToTab] records the descriptor "Z" for it. *)
Definition popup_selected : list Event :=
  popup_attached
  ++ [SetTabId 2; Settled 0 (FulfilledTabs []);
      WsOnMessage (attach_to_tab 3); Settled 0 (Fulfilled JUndefined);
      Settled 0 (Fulfilled (target_info "Z" "B2"))].

(** * Facts about the embedding *)

(** ** Session identifiers *)

(** Reading decimal digits after a positive prefix continues the number, as
    [Pos.of_uint_acc] does. *)
Lemma parse_digits_acc d : forall acc : positive,
  parse_digits (NilEmpty.string_of_uint d) (Some (Z.pos acc))
  = Some (Z.pos (Pos.of_uint_acc d acc)).
Proof.
  induction d; intros acc; simpl; try reflexivity;
    unfold digit_of; simpl; rewrite <- IHd; do 2 f_equal;
    match goal with
    | |- context [nat_of_ascii ?c] =>
        let v := eval vm_compute in (Z.of_nat (nat_of_ascii c)) in
        change (Z.of_nat (nat_of_ascii c)) with v
    end; lia.
Qed.

(** Leading zeros do not count. *)
Lemma parse_digits_zero d :
  parse_digits (NilEmpty.string_of_uint d) (Some 0) = Some (Z.of_N (Pos.of_uint d)).
Proof.
  induction d; simpl; try reflexivity; unfold digit_of; simpl;
    first [ exact IHd | apply parse_digits_acc ].
Qed.

Lemma parse_digits_start d :
  d <> Decimal.Nil ->
  parse_digits (NilEmpty.string_of_uint d) None
  = parse_digits (NilEmpty.string_of_uint d) (Some 0).
Proof. destruct d; intros H; [congruence | reflexivity ..]. Qed.

Lemma parseInt_digits d :
  d <> Decimal.Nil ->
  parseInt (NilEmpty.string_of_uint d) = Some (Z.of_N (Pos.of_uint d)).
Proof.
  intros H. rewrite <- parse_digits_zero, <- parse_digits_start by exact H.
  destruct d; [congruence | reflexivity ..].
Qed.

(** [parseInt] reads the decimal text of a number back. *)
Lemma parseInt_number_to_string n : parseInt (number_to_string n) = Some n.
Proof.
  unfold number_to_string. destruct n as [| p | p]; simpl.
  - reflexivity.
  - pose proof (Unsigned.to_uint_nonnil p) as Hnil.
    unfold NilZero.string_of_uint.
    destruct (Pos.to_uint p) eqn:E; try congruence;
      rewrite <- E, parseInt_digits, Unsigned.of_to by (rewrite E; discriminate);
      reflexivity.
  - pose proof (Unsigned.to_uint_nonnil p) as Hnil.
    unfold NilZero.string_of_uint.
    assert (Hs : NilEmpty.string_of_uint (Pos.to_uint p)
                 = match Pos.to_uint p with
                   | Decimal.Nil => "0"
                   | _ => NilEmpty.string_of_uint (Pos.to_uint p)
                   end) by (destruct (Pos.to_uint p); congruence).
    rewrite <- Hs. unfold parseInt. simpl.
    rewrite parse_digits_start, parse_digits_zero, Unsigned.of_to by exact Hnil.
    reflexivity.
Qed.

Lemma prefix_tab rest : String.prefix "tab-" ("tab-" +:+ rest) = true.
Proof. simpl. now destruct rest. Qed.

Lemma substring_tab rest : substring_from 4 ("tab-" +:+ rest) = rest.
Proof. reflexivity. Qed.


(** The session identifier of a child names that child. *)
Lemma tab_session_id_parses n :
  String.prefix "tab-" (tab_session_id n) = true
  /\ parseInt (substring_from 4 (tab_session_id n)) = Some n.
Proof.
  unfold tab_session_id. rewrite prefix_tab, substring_tab.
  split; [reflexivity | apply parseInt_number_to_string].
Qed.

(** ** Sets, objects and histories *)

(** [Set.has] is membership. *)
Lemma Set_has_In n l : Set_has (Some n) l = true <-> In n l.
Proof.
  simpl. rewrite existsb_exists. split.
  - intros (m & Hin & Heq). apply Z.eqb_eq in Heq. now subst.
  - intros Hin. exists n. split; [exact Hin | apply Z.eqb_refl].
Qed.

(** [Set.delete] removes the element and nothing else. *)
Lemma Set_delete_In m n l : In m (Set_delete n l) <-> In m l /\ m <> n.
Proof.
  unfold Set_delete. rewrite List.filter_In, negb_true_iff, Z.eqb_neq. tauto.
Qed.

(** [Set.add] and [Set.delete] keep the elements distinct. *)
Lemma NoDup_Set_add n l : NoDup l -> NoDup (Set_add n l).
Proof.
  intros H. unfold Set_add. destruct (existsb (Z.eqb n) l) eqn:E; [exact H |].
  apply NoDup_app. split; [exact H |]. split; [| apply NoDup_singleton].
  intros m Hm Hin. apply list_elem_of_In in Hm.
  apply list_elem_of_In in Hin. destruct Hin as [<- | []].
  assert (Hex : existsb (Z.eqb n) l = true)
    by (apply existsb_exists; exists n; split; [exact Hm | apply Z.eqb_refl]).
  congruence.
Qed.

Lemma NoDup_Set_delete n l : NoDup l -> NoDup (Set_delete n l).
Proof.
  intros H. unfold Set_delete. apply NoDup_ListNoDup.
  apply List.NoDup_filter. now apply NoDup_ListNoDup.
Qed.

Lemma strict_eq_refl a : strict_eq a a = true.
Proof. destruct a; simpl; [apply Z.eqb_refl | reflexivity]. Qed.

(** A property definition is read back, and leaves the other keys alone. *)
Lemma assoc_set_prop_eq k v props : assoc k (set_prop k v props) = v.
Proof.
  induction props as [| [k' v'] props IH]; simpl.
  - now rewrite String.eqb_refl.
  - destruct (String.eqb k k') eqn:E; simpl; rewrite ?String.eqb_refl, ?E; auto.
Qed.

Lemma assoc_set_prop_ne k k' v props :
  k <> k' -> assoc k (set_prop k' v props) = assoc k props.
Proof.
  intros Hne. apply String.eqb_neq in Hne.
  induction props as [| [k'' v''] props IH]; simpl.
  - now rewrite Hne.
  - destruct (String.eqb k' k'') eqn:E; simpl.
    + apply String.eqb_eq in E. subst k''. now rewrite Hne.
    + destruct (String.eqb k k''); auto.
Qed.

(** Counting over a trace that grew. *)
Lemma count_effect_app p a b :
  count_effect p (a ++ b) = (count_effect p a + count_effect p b)%nat.
Proof. unfold count_effect. now rewrite List.filter_app, length_app. Qed.

Lemma count_effect_none p es :
  Forall (fun e => p e = false) es -> count_effect p es = 0%nat.
Proof.
  unfold count_effect. induction 1 as [| e es He _ IH]; simpl; [reflexivity |].
  now rewrite He.
Qed.

Lemma count_child_detach p (children : list Z) :
  (forall t, p (ChromeDebuggerDetach t) = false) ->
  count_effect p (List.map (fun childTabId => ChromeDebuggerDetach (Some childTabId)) children)
  = 0%nat.
Proof.
  intros Hp. apply count_effect_none.
  induction children; simpl; constructor; auto.
Qed.

Lemma count_attach_repeat target (ids : list Z) :
  count_effect (is_attach target) (List.map (fun _ => ChromeDebuggerAttach target) ids)
  = length ids.
Proof.
  unfold count_effect. induction ids as [| id ids IH]; simpl; [reflexivity |].
  rewrite strict_eq_refl. simpl. now rewrite IH.
Qed.

(** Histories compose. *)
Lemma run_cons c e events : run c (e :: events) = run (step c e) events.
Proof. reflexivity. Qed.

Lemma run_app c events1 events2 :
  run c (events1 ++ events2) = run (run c events1) events2.
Proof. apply fold_left_app. Qed.

(** The turn that settles the promise of the [k]-th suspended method. *)
Lemma step_settled k cont r c c' :
  pending c !! k = Some cont ->
  resume cont r (with_pending (delete k (pending c)) c) = Some c' ->
  step c (Settled k r) = c'.
Proof. intros Hk Hr. simpl. now rewrite Hk, Hr. Qed.

(** On an open socket the response is sent. *)
Lemma respond_open id o c :
  ws_open c = true -> respond id o c = emit (WsSend (JSON_stringify (response id o))) c.
Proof. intros H. unfold respond, _sendMessage. now rewrite H. Qed.

(** ** What [_onClose] does *)

(** [_onClose] returns at once on a closed connection. *)
Lemma onClose_closed c : _closed c = true -> _onClose c = c.
Proof. intros H. unfold _onClose. now rewrite H. Qed.

(** The effects of [_onClose]. *)
Lemma onClose_trace c :
  trace (_onClose c) = trace c ++ (if _closed c then [] else teardown_effects c).
Proof.
  unfold _onClose, teardown_effects.
  destruct (_closed c); [now rewrite app_nil_r |].
  simpl. destruct (onclose c); simpl; now rewrite <- !app_assoc.
Qed.

Lemma onClose_sets_closed c : _closed (_onClose c) = true.
Proof.
  unfold _onClose. destruct (_closed c) eqn:H; [exact H |].
  simpl. now destruct (onclose c).
Qed.

Lemma onClose_onclose c : onclose (_onClose c) = onclose c.
Proof.
  unfold _onClose. destruct (_closed c); [reflexivity |].
  simpl. destruct (onclose c) eqn:E; exact E.
Qed.

Lemma onClose_fields c :
  listening (_onClose c) = (if _closed c then listening c else false)
  /\ _childTabs (_onClose c) = (if _closed c then _childTabs c else [])
  /\ _tabIdToTargetId (_onClose c) = (if _closed c then _tabIdToTargetId c else ∅).
Proof.
  unfold _onClose. destruct (_closed c); [auto |].
  simpl. now destruct (onclose c).
Qed.

(** ** Where a command goes *)

(** Routing throws nothing but a TypeError. *)
Lemma route_command_throws sessionId c e :
  route_command sessionId c = RouteThrow e ->
  exists m, e = ErrType m /\ m <> no_tab_message.
Proof.
  unfold route_command. intros H.
  destruct (truthy sessionId); [| discriminate H].
  destruct sessionId; try (injection H as <-; eexists; split; [reflexivity | discriminate]).
  repeat match type of H with
         | context [if ?b then _ else _] => destruct b
         end; discriminate H.
Qed.

Lemma route_detach_throws params c e :
  route_detach params c = RouteThrow e ->
  exists m, e = ErrType m /\ m <> no_tab_message.
Proof.
  unfold route_detach. intros H.
  destruct (truthy (get_prop "sessionId" (js_or params (JObj [])))); [| discriminate H].
  destruct (get_prop "sessionId" (js_or params (JObj [])));
    try (injection H as <-; eexists; split; [reflexivity | discriminate]).
  repeat match type of H with
         | context [if ?b then _ else _] => destruct b
         | context [match ?b with _ => _ end] => destruct b
         end; discriminate H.
Qed.

(** The three ways [forwardCDPCommand] goes on: a TypeError, a direct detach
    of a child, or a command sent to Chrome. *)
Lemma forwardCDPCommand_cases id p c :
  (exists m, m <> no_tab_message
     /\ forwardCDPCommand id p c = respond id (Throw (ErrType m)) c)
  \/ (exists n,
        forwardCDPCommand id p c
        = call (ChromeDebuggerDetach (Some n)) (AwaitChildDetach id n) c)
  \/ (exists target,
        forwardCDPCommand id p c
        = call (ChromeDebuggerSendCommand target (get_prop "method" p)
                  (get_prop "params" p)) (AwaitSendCommand id) c).
Proof.
  assert (Hroute : forall r,
    (r = route_detach (get_prop "params" p) c
     \/ r = route_command (get_prop "sessionId" p) c) ->
    (exists m, m <> no_tab_message
       /\ match r with
          | RouteThrow e => respond id (Throw e) c
          | RouteDetach childTabId =>
              call (ChromeDebuggerDetach (Some childTabId))
                (AwaitChildDetach id childTabId) c
          | RouteSend target =>
              call (ChromeDebuggerSendCommand target (get_prop "method" p)
                      (get_prop "params" p)) (AwaitSendCommand id) c
          end = respond id (Throw (ErrType m)) c)
    \/ (exists n,
          match r with
          | RouteThrow e => respond id (Throw e) c
          | RouteDetach childTabId =>
              call (ChromeDebuggerDetach (Some childTabId))
                (AwaitChildDetach id childTabId) c
          | RouteSend target =>
              call (ChromeDebuggerSendCommand target (get_prop "method" p)
                      (get_prop "params" p)) (AwaitSendCommand id) c
          end = call (ChromeDebuggerDetach (Some n)) (AwaitChildDetach id n) c)
    \/ (exists target,
          match r with
          | RouteThrow e => respond id (Throw e) c
          | RouteDetach childTabId =>
              call (ChromeDebuggerDetach (Some childTabId))
                (AwaitChildDetach id childTabId) c
          | RouteSend target =>
              call (ChromeDebuggerSendCommand target (get_prop "method" p)
                      (get_prop "params" p)) (AwaitSendCommand id) c
          end = call (ChromeDebuggerSendCommand target (get_prop "method" p)
                        (get_prop "params" p)) (AwaitSendCommand id) c)).
  { intros [e | n | target] Hr.
    - left. destruct Hr as [Hr | Hr]; symmetry in Hr;
        [apply route_detach_throws in Hr | apply route_command_throws in Hr];
        destruct Hr as (m & -> & Hm); eauto.
    - right. left. eauto.
    - right. right. eauto. }
  unfold forwardCDPCommand.
  destruct p;
    try (left; eexists; split; [| reflexivity]; discriminate);
    apply Hroute;
    match goal with
    | |- context [if ?b then _ else _] => destruct b
    end; auto.
Qed.


(** The session of a known child: that child. *)
Lemma route_command_child rest n c :
  parseInt rest = Some n -> In n (_childTabs c) ->
  route_command (JStr ("tab-" +:+ rest)) c = RouteSend (debuggee_session (Some n)).
Proof.
  intros Hp Hin. unfold route_command.
  rewrite prefix_tab, substring_tab, Hp.
  apply Set_has_In in Hin. rewrite Hin.
  change (truthy (JStr ("tab-" +:+ rest))) with true. reflexivity.
Qed.



(** A detach that names a known child detaches it. *)
Lemma route_detach_child params rest n c :
  get_prop "sessionId" params = JStr ("tab-" +:+ rest) ->
  parseInt rest = Some n -> In n (_childTabs c) ->
  route_detach params c = RouteDetach n.
Proof.
  intros Hs Hp Hin. unfold route_detach.
  assert (Hparams : js_or params (JObj []) = params).
  { destruct params; try discriminate Hs. reflexivity. }
  rewrite Hparams, Hs.
  change (truthy (JStr ("tab-" +:+ rest))) with true.
  rewrite prefix_tab, substring_tab, Hp.
  apply Set_has_In in Hin. now rewrite Hin.
Qed.

(** Without a tab, every command but [attachToTab] throws. *)
Lemma handleCommand_no_tab message c :
  cmd_method message <> "attachToTab" ->
  truthy_num (_debuggee c) = false ->
  _handleCommand message c = respond (cmd_id message) (Throw ErrNoTab) c.
Proof.
  intros Hm Ht. unfold _handleCommand.
  apply String.eqb_neq in Hm. now rewrite Hm, Ht.
Qed.

(** With a tab selected, a command is never answered with the not-ready
    error. *)
Lemma handleCommand_with_tab message c :
  ws_open c = true ->
  cmd_method message <> "attachToTab" ->
  truthy_num (_debuggee c) = true ->
  trace (_handleCommand message c)
  <> trace c ++ [WsSend (not_ready_response (cmd_id message))].
Proof.
  intros Hws Hm Ht. unfold _handleCommand.
  apply String.eqb_neq in Hm. rewrite Hm, Ht. simpl.
  destruct (String.eqb (cmd_method message) "forwardCDPCommand").
  - destruct (forwardCDPCommand_cases (cmd_id message) (cmd_params message) c)
      as [(m & Hne & ->) | [(n & ->) | (target & ->)]].
    + rewrite respond_open by exact Hws. simpl.
      intros H. apply app_inv_head in H. injection H as H. now apply Hne.
    + simpl. intros H. apply app_inv_head in H. discriminate H.
    + simpl. intros H. apply app_inv_head in H. discriminate H.
  - rewrite respond_open by exact Hws. simpl.
    intros H. apply app_inv_head in H. discriminate H.
Qed.

(** The turn of an [attachToTab] command. *)
Lemma step_attachToTab c id :
  ws_open c = true ->
  step c (WsOnMessage (attach_to_tab id))
  = if tab_selected c then attachToTab id c
    else with_bind_waiters (bind_waiters c ++ [id]) c.
Proof. intros Hws. simpl. now rewrite Hws. Qed.

(** ** The child set and the target map *)

(** The sweep either finds nothing to attach or suspends at one attach
    call. *)
Lemma sweep_cases tabs : forall c,
  sweep tabs c = c
  \/ exists tabId rest,
       sweep tabs c
       = call (ChromeDebuggerAttach (Some tabId)) (AwaitChildAttach tabId (FromSweep rest)) c.
Proof.
  induction tabs as [| tab rest IH]; intros c; simpl; [now left |].
  destruct (truthy_num (tab_id tab) && strict_eq (tab_openerTabId tab) (_debuggee c));
    [| apply IH].
  destruct (tab_id tab) as [tabId |]; [| apply IH].
  destruct (attach_skipped tabId c); [apply IH |]. right. eauto.
Qed.

(** The sweep, a return to the caller and a send leave the bookkeeping
    alone, and so does all of command handling up to its first [await]. *)
Lemma sweep_bookkeeping tabs : forall c, bookkeeping (sweep tabs c) = bookkeeping c.
Proof.
  induction tabs as [| tab rest IH]; intros c; simpl; [reflexivity |].
  destruct (truthy_num (tab_id tab) && strict_eq (tab_openerTabId tab) (_debuggee c));
    [| apply IH].
  destruct (tab_id tab) as [tabId |]; [| apply IH].
  destruct (attach_skipped tabId c); [apply IH | reflexivity].
Qed.

Lemma returned_bookkeeping caller c : bookkeeping (returned caller c) = bookkeeping c.
Proof. destruct caller; [reflexivity | apply sweep_bookkeeping]. Qed.

Lemma sendMessage_bookkeeping m c : bookkeeping (_sendMessage m c) = bookkeeping c.
Proof. unfold _sendMessage. now destruct (ws_open c). Qed.

Lemma respond_bookkeeping id o c : bookkeeping (respond id o c) = bookkeeping c.
Proof. apply sendMessage_bookkeeping. Qed.

Lemma forwardCDPCommand_bookkeeping id p c :
  bookkeeping (forwardCDPCommand id p c) = bookkeeping c.
Proof.
  destruct (forwardCDPCommand_cases id p c) as [(m & _ & ->) | [(n & ->) | (target & ->)]];
    [apply respond_bookkeeping | reflexivity | reflexivity].
Qed.

Lemma handleCommand_bookkeeping message c :
  bookkeeping (_handleCommand message c) = bookkeeping c.
Proof.
  unfold _handleCommand.
  repeat match goal with
         | |- context [if ?b then _ else _] => destruct b
         end;
    first [ reflexivity | apply respond_bookkeeping | apply forwardCDPCommand_bookkeeping ].
Qed.

Lemma waiters_bookkeeping ids : forall c,
  bookkeeping (fold_left (fun acc id => attachToTab id acc) ids c) = bookkeeping c.
Proof.
  induction ids as [| id ids IH]; intros c; simpl; [reflexivity |]. now rewrite IH.
Qed.

Lemma setTabId_bookkeeping tabId c : bookkeeping (setTabId tabId c) = bookkeeping c.
Proof.
  unfold setTabId. rewrite waiters_bookkeeping. unfold _checkForExistingChildTabs. simpl.
  now destruct (negb (negb (tabId =? 0))).
Qed.

Lemma attachToNewTab_bookkeeping tabId caller c :
  bookkeeping (_attachToNewTab tabId caller c) = bookkeeping c.
Proof.
  unfold _attachToNewTab. destruct (attach_skipped tabId c);
    [apply returned_bookkeeping | reflexivity].
Qed.

(** What a resumed method does to the child set. *)
Lemma resume_childTabs k r c c' :
  resume k r c = Some c' ->
  _childTabs c' = _childTabs c
  \/ (exists tabId, _childTabs c' = Set_add tabId (_childTabs c))
  \/ (exists tabId, _childTabs c' = Set_delete tabId (_childTabs c))
  \/ _childTabs c' = [].
Proof.
  assert (Hbk : forall c1 c2, bookkeeping c1 = bookkeeping c2 -> _childTabs c1 = _childTabs c2)
    by (intros c1 c2 H; now injection H).
  assert (Hres : forall id o c0, _childTabs (respond id o c0) = _childTabs c0)
    by (intros; apply Hbk, respond_bookkeeping).
  assert (Hret : forall caller c0, _childTabs (returned caller c0) = _childTabs c0)
    by (intros; apply Hbk, returned_bookkeeping).
  assert (Hsend : forall m c0, _childTabs (_sendMessage m c0) = _childTabs c0)
    by (intros; apply Hbk, sendMessage_bookkeeping).
  assert (Hsweep : forall tabs c0, _childTabs (sweep tabs c0) = _childTabs c0)
    by (intros; apply Hbk, sweep_bookkeeping).
  intros Hr.
  destruct k, r; simpl in Hr; try discriminate;
    repeat match type of Hr with
           | context [match ?x with _ => _ end] => destruct x
           end;
    try discriminate; injection Hr as <-;
    rewrite ?Hres, ?Hret, ?Hsend, ?Hsweep; simpl; eauto.
Qed.

(** What a turn does to the child set: nothing, one insertion, one removal,
    or the clearing of [_onClose]. *)
Lemma step_childTabs c e :
  _childTabs (step c e) = _childTabs c
  \/ (exists tabId, _childTabs (step c e) = Set_add tabId (_childTabs c))
  \/ (exists tabId, _childTabs (step c e) = Set_delete tabId (_childTabs c))
  \/ _childTabs (step c e) = [].
Proof.
  assert (Hbk : forall c1 c2, bookkeeping c1 = bookkeeping c2 -> _childTabs c1 = _childTabs c2)
    by (intros c1 c2 H; now injection H).
  assert (Hclose : forall c0, _childTabs c0 = _childTabs c ->
            _childTabs (_onClose c0) = _childTabs c \/ _childTabs (_onClose c0) = []).
  { intros c0 H0. destruct (onClose_fields c0) as (_ & Hc & _). rewrite Hc, H0.
    destruct (_closed c0); auto. }
  assert (Hgone : forall tabId,
            _childTabs (child_gone tabId c) = Set_delete tabId (_childTabs c)).
  { intros tabId. unfold child_gone, _sendMessage. simpl. now destruct (ws_open c). }
  destruct e; simpl.
  - left. apply Hbk, setTabId_bookkeeping.
  - destruct (Hclose (with_ws_open false (emit (WsClose 1000 message) c)) eq_refl); auto.
  - destruct (Hclose (with_ws_open false c) eq_refl); auto.
  - left. destruct (ws_open c); [| reflexivity]. destruct data; simpl.
    + apply Hbk, sendMessage_bookkeeping.
    + apply Hbk, handleCommand_bookkeeping.
  - left. destruct (listening c); [| reflexivity]. unfold _onDebuggerEvent.
    match goal with |- context [if ?b then _ else _] => destruct b end;
      [reflexivity | apply Hbk, sendMessage_bookkeeping].
  - destruct (listening c); [| now left]. unfold _onDebuggerDetach.
    destruct (strict_eq source (_debuggee c)).
    + unfold close. simpl.
      destruct (Hclose (with_ws_open false
                          (emit (WsClose 1000 ("Debugger detached: " +:+ reason)) c))
                  eq_refl); auto.
    + destruct (truthy_num source && Set_has source (_childTabs c)); [| now left].
      destruct source as [tabId |]; [| now left]. right. right. left. eauto.
  - left. destruct (listening c); [| reflexivity]. unfold _onTabCreated.
    repeat match goal with
           | |- context [if ?b then _ else _] => destruct b
           | |- context [match ?x with _ => _ end] => destruct x
           end; reflexivity.
  - destruct (listening c); [| now left]. unfold _onTabRemoved.
    destruct (Set_has (Some tabId) (_childTabs c)); [| now left].
    right. right. left. eauto.
  - destruct (pending c !! k) as [cont |]; [| now left].
    destruct (resume cont r _) as [c' |] eqn:Hr; [| now left].
    apply resume_childTabs in Hr. exact Hr.
  - destruct (pending c !! k) as [[] |]; try (now left).
    left. now rewrite (Hbk _ _ (attachToNewTab_bookkeeping _ _ _)).
Qed.

(** Over any history the child set lists no tab twice. *)
Lemma childTabs_NoDup_run events : forall c,
  NoDup (_childTabs c) -> NoDup (_childTabs (run c events)).
Proof.
  induction events as [| e events IH]; intros c H; simpl; [exact H |].
  apply IH.
  destruct (step_childTabs c e) as [-> | [(t & ->) | [(t & ->) | ->]]];
    auto using NoDup_Set_add, NoDup_Set_delete, NoDup_nil_2.
Qed.

(** ** Turns that are no teardown *)

(** [quiet] is a preorder, and every state change but [_onClose] is quiet. *)
Lemma quiet_refl c : quiet c c.
Proof.
  repeat split. exists []. split; [now rewrite app_nil_r | constructor].
Qed.

Lemma quiet_trans c1 c2 c3 : quiet c1 c2 -> quiet c2 c3 -> quiet c1 c3.
Proof.
  intros (Hc & Ho & es & Ht & Hes) (Hc' & Ho' & es' & Ht' & Hes').
  split; [congruence |]. split; [congruence |].
  exists (es ++ es'). split.
  - rewrite Ht', Ht. now rewrite <- app_assoc.
  - apply Forall_app; auto.
Qed.

Lemma quiet_emit e c0 c :
  ordinary e = true -> quiet c0 c -> quiet c0 (emit e c).
Proof.
  intros He H. eapply quiet_trans; [exact H |].
  repeat split. exists [e]. split; [reflexivity |]. constructor; [exact He | constructor].
Qed.

Lemma quiet_same c0 c c' :
  _closed c' = _closed c -> onclose c' = onclose c -> trace c' = trace c ->
  quiet c0 c -> quiet c0 c'.
Proof.
  intros Hc Ho Ht H. eapply quiet_trans; [exact H |].
  split; [exact Hc |]. split; [exact Ho |].
  exists []. split; [now rewrite app_nil_r | constructor].
Qed.

(** Opens the conditionals of a method and closes each branch with the rules
    above. *)
Ltac quiet_step :=
  match goal with
  | |- quiet _ (emit _ _) => apply quiet_emit; [reflexivity |]
  | |- quiet _ (call _ _ _) => unfold call
  | |- quiet ?c0 (suspend _ ?x) => apply (quiet_same c0 x); [reflexivity .. |]
  | |- quiet ?c0 (with_debuggee _ ?x) => apply (quiet_same c0 x); [reflexivity .. |]
  | |- quiet ?c0 (with_ws_open _ ?x) => apply (quiet_same c0 x); [reflexivity .. |]
  | |- quiet ?c0 (with_listening _ ?x) => apply (quiet_same c0 x); [reflexivity .. |]
  | |- quiet ?c0 (with_tab_selected _ ?x) => apply (quiet_same c0 x); [reflexivity .. |]
  | |- quiet ?c0 (with_bind_waiters _ ?x) => apply (quiet_same c0 x); [reflexivity .. |]
  | |- quiet ?c0 (with_childTabs _ ?x) => apply (quiet_same c0 x); [reflexivity .. |]
  | |- quiet ?c0 (with_tabIdToTargetId _ ?x) => apply (quiet_same c0 x); [reflexivity .. |]
  | |- quiet ?c0 (with_mainTabTargetId _ ?x) => apply (quiet_same c0 x); [reflexivity .. |]
  | |- quiet ?c0 (with_pending _ ?x) => apply (quiet_same c0 x); [reflexivity .. |]
  | |- quiet _ (if ?b then _ else _) => destruct b
  | |- quiet _ (match ?x with _ => _ end) => destruct x
  | |- quiet ?c ?c => apply quiet_refl
  | H : quiet ?c0 ?c |- quiet ?c0 ?c => exact H
  end.

Ltac quiet := repeat quiet_step.

Lemma quiet_sendMessage m c0 c :
  has_both (JSON_stringify m) = false -> quiet c0 c -> quiet c0 (_sendMessage m c).
Proof.
  intros Hm H. unfold _sendMessage. destruct (ws_open c); [| exact H].
  apply quiet_emit; [| exact H]. unfold ordinary. now rewrite Hm.
Qed.

(** A response never has both [result] and [error]. *)
Lemma response_not_both id o : has_both (JSON_stringify (response id o)) = false.
Proof. destruct o as [[] | e]; reflexivity. Qed.

Lemma quiet_respond id o c0 c : quiet c0 c -> quiet c0 (respond id o c).
Proof. intros H. apply quiet_sendMessage; [apply response_not_both | exact H]. Qed.

Lemma quiet_sweep tabs : forall c0 c, quiet c0 c -> quiet c0 (sweep tabs c).
Proof.
  induction tabs as [| tab rest IH]; intros c0 c H; simpl.
  - exact H.
  - destruct (truthy_num (tab_id tab) && strict_eq (tab_openerTabId tab) (_debuggee c));
      [| now apply IH].
    destruct (tab_id tab) as [tabId |]; [| now apply IH].
    destruct (attach_skipped tabId c); [now apply IH |]. quiet.
Qed.

Lemma quiet_returned caller c0 c : quiet c0 c -> quiet c0 (returned caller c).
Proof. intros H. destruct caller; simpl; [exact H | now apply quiet_sweep]. Qed.

Lemma quiet_attachToNewTab tabId caller c0 c :
  quiet c0 c -> quiet c0 (_attachToNewTab tabId caller c).
Proof.
  intros H. unfold _attachToNewTab.
  destruct (attach_skipped tabId c); [now apply quiet_returned |]. quiet.
Qed.

Lemma quiet_resume k r c0 c c' :
  resume k r c = Some c' -> quiet c0 c -> quiet c0 c'.
Proof.
  intros Hr H.
  destruct k, r; simpl in Hr; try discriminate;
    repeat match type of Hr with
           | context [match ?x with _ => _ end] => destruct x
           end;
    try discriminate; injection Hr as <-;
    repeat first [ apply quiet_respond | apply quiet_returned
                 | apply quiet_sendMessage; [reflexivity |] | apply quiet_sweep
                 | unfold getTargetInfo; quiet_step ].
Qed.

Lemma quiet_forwardCDPCommand id p c0 c :
  quiet c0 c -> quiet c0 (forwardCDPCommand id p c).
Proof.
  intros H. unfold forwardCDPCommand.
  destruct p; try (now apply quiet_respond);
    match goal with
    | |- quiet _ (match ?x with _ => _ end) => destruct x
    end; try (now apply quiet_respond); quiet.
Qed.

Lemma quiet_handleCommand message c0 c :
  quiet c0 c -> quiet c0 (_handleCommand message c).
Proof.
  intros H. unfold _handleCommand, attachToTab.
  repeat match goal with
         | |- quiet _ (if ?b then _ else _) => destruct b
         end;
    first [ now apply quiet_respond | now apply quiet_forwardCDPCommand | quiet ].
Qed.

Lemma quiet_onMessageAsync data c0 c :
  quiet c0 c -> quiet c0 (_onMessageAsync data c).
Proof.
  intros H. destruct data; simpl.
  - now apply quiet_sendMessage.
  - now apply quiet_handleCommand.
Qed.

Lemma quiet_waiters ids : forall c0 c,
  quiet c0 c -> quiet c0 (fold_left (fun acc id => attachToTab id acc) ids c).
Proof.
  induction ids as [| id ids IH]; intros c0 c H; simpl; [exact H |].
  apply IH. unfold attachToTab. quiet.
Qed.

Lemma quiet_setTabId tabId c0 c : quiet c0 c -> quiet c0 (setTabId tabId c).
Proof.
  intros H. unfold setTabId. apply quiet_waiters.
  unfold _checkForExistingChildTabs. quiet.
Qed.

Lemma quiet_child_gone tabId c0 c : quiet c0 c -> quiet c0 (child_gone tabId c).
Proof. intros H. unfold child_gone. apply quiet_sendMessage; [reflexivity |]. quiet. Qed.

Lemma quiet_onDebuggerEvent source method params c0 c :
  quiet c0 c -> quiet c0 (_onDebuggerEvent source method params c).
Proof.
  intros H. unfold _onDebuggerEvent.
  match goal with
  | |- quiet _ (if ?b then _ else _) => destruct b
  end; [exact H | now apply quiet_sendMessage].
Qed.

Lemma quiet_onTabRemoved tabId c0 c : quiet c0 c -> quiet c0 (_onTabRemoved tabId c).
Proof.
  intros H. unfold _onTabRemoved.
  destruct (Set_has (Some tabId) (_childTabs c)); [now apply quiet_child_gone | exact H].
Qed.

Lemma quiet_onTabCreated tab c0 c : quiet c0 c -> quiet c0 (_onTabCreated tab c).
Proof. intros H. unfold _onTabCreated. quiet. Qed.

(** Every turn is quiet, or it is [_onClose] after quiet preparations
    (followed, for a detach of the primary target, by the reset of
    [_debuggee]). *)
Lemma step_quiet_or_close c e :
  quiet c (step c e)
  \/ exists c0, quiet c c0
       /\ (step c e = _onClose c0 \/ step c e = with_debuggee None (_onClose c0)).
Proof.
  destruct e; simpl.
  - left. now apply quiet_setTabId, quiet_refl.
  - right. eexists. split; [| left; reflexivity]. quiet.
  - right. eexists. split; [| left; reflexivity]. quiet.
  - left. destruct (ws_open c); [apply quiet_onMessageAsync |]; apply quiet_refl.
  - left. destruct (listening c); [apply quiet_onDebuggerEvent |]; apply quiet_refl.
  - destruct (listening c); [| left; apply quiet_refl].
    unfold _onDebuggerDetach.
    destruct (strict_eq source (_debuggee c)).
    + right. eexists. split; [| right; reflexivity]. quiet.
    + left. destruct (truthy_num source && Set_has source (_childTabs c));
        [| apply quiet_refl].
      destruct source; [apply quiet_child_gone |]; apply quiet_refl.
  - left. destruct (listening c); [apply quiet_onTabCreated |]; apply quiet_refl.
  - left. destruct (listening c); [apply quiet_onTabRemoved |]; apply quiet_refl.
  - left. destruct (pending c !! k) as [cont |]; [| apply quiet_refl].
    destruct (resume cont r _) as [c' |] eqn:Hr; [| apply quiet_refl].
    eapply quiet_resume; [exact Hr |]. quiet.
  - left. destruct (pending c !! k) as [[] |]; try apply quiet_refl.
    apply quiet_attachToNewTab. quiet.
Qed.

(** ** One teardown *)

(** [teardown_once] survives quiet turns and [_onClose]. *)
Lemma teardown_once_quiet handler c c' :
  quiet c c' -> teardown_once handler c -> teardown_once handler c'.
Proof.
  intros (Hc & Ho & es & Ht & Hes) (Hh & H1 & H4).
  split; [congruence |]. rewrite Ht, !count_effect_app, Hc, H1, H4.
  rewrite !count_effect_none; [auto | |].
  - eapply List.Forall_impl; [| exact Hes]. intros e He.
    now destruct e.
  - eapply List.Forall_impl; [| exact Hes]. intros e He.
    now destruct e.
Qed.

Lemma teardown_once_onClose handler c :
  teardown_once handler c -> teardown_once handler (_onClose c).
Proof.
  intros (Hh & H1 & H4).
  destruct (_closed c) eqn:Hc.
  - rewrite onClose_closed by exact Hc. unfold teardown_once. now rewrite Hc.
  - split; [now rewrite onClose_onclose |].
    rewrite onClose_trace, onClose_sets_closed, Hc, !count_effect_app, H1, H4.
    unfold teardown_effects. rewrite !count_effect_app.
    rewrite !count_child_detach by reflexivity.
    rewrite Hh. now destruct handler.
Qed.

Lemma teardown_once_step handler c e :
  teardown_once handler c -> teardown_once handler (step c e).
Proof.
  intros H. destruct (step_quiet_or_close c e) as [Hq | (c0 & Hq & [-> | ->])].
  - eapply teardown_once_quiet; eauto.
  - apply teardown_once_onClose. eapply teardown_once_quiet; eauto.
  - assert (H' : teardown_once handler (_onClose c0))
      by (apply teardown_once_onClose; eapply teardown_once_quiet; eauto).
    exact H'.
Qed.

Lemma teardown_once_run handler events : forall c,
  teardown_once handler c -> teardown_once handler (run c events).
Proof.
  induction events as [| e events IH]; intros c H; simpl; [exact H |].
  apply IH. now apply teardown_once_step.
Qed.

(** ** What is sent *)

(** [sends_well_formed] survives quiet turns and [_onClose]. *)
Lemma sends_well_formed_quiet c c' :
  quiet c c' -> sends_well_formed c -> sends_well_formed c'.
Proof.
  intros (_ & _ & es & Ht & Hes) H doc Hin.
  rewrite Ht in Hin. apply in_app_or in Hin. destruct Hin as [Hin | Hin]; [auto |].
  rewrite List.Forall_forall in Hes. specialize (Hes _ Hin).
  simpl in Hes. now apply negb_true_iff in Hes.
Qed.

Lemma sends_well_formed_onClose c :
  sends_well_formed c -> sends_well_formed (_onClose c).
Proof.
  intros H doc Hin. rewrite onClose_trace in Hin.
  apply in_app_or in Hin. destruct Hin as [Hin | Hin]; [auto |].
  exfalso. destruct (_closed c); [exact Hin |].
  unfold teardown_effects in Hin.
  repeat (apply in_app_or in Hin; destruct Hin as [Hin | Hin]).
  - simpl in Hin. intuition discriminate.
  - apply in_map_iff in Hin. destruct Hin as (t & Ht & _). discriminate Ht.
  - simpl in Hin. intuition discriminate.
  - destruct (onclose c); simpl in Hin; intuition discriminate.
Qed.

Lemma sends_well_formed_step c e :
  sends_well_formed c -> sends_well_formed (step c e).
Proof.
  intros H. destruct (step_quiet_or_close c e) as [Hq | (c0 & Hq & [-> | ->])].
  - eapply sends_well_formed_quiet; eauto.
  - apply sends_well_formed_onClose. eapply sends_well_formed_quiet; eauto.
  - assert (H' : sends_well_formed (_onClose c0))
      by (apply sends_well_formed_onClose; eapply sends_well_formed_quiet; eauto).
    exact H'.
Qed.

Lemma sends_well_formed_run events : forall c,
  sends_well_formed c -> sends_well_formed (run c events).
Proof.
  induction events as [| e events IH]; intros c H; simpl; [exact H |].
  apply IH. now apply sends_well_formed_step.
Qed.

(** ** Responses answer commands *)

(** [paired] survives every state change whose effects and continuations
    answer a command among [ids]. *)
Lemma paired_emit ids e c :
  (forall id, response_id e = Some id -> In id ids) ->
  paired ids c -> paired ids (emit e c).
Proof.
  intros He (Hw & Hp & Ht). repeat split; auto.
  intros e' id Hin Hid. simpl in Hin. apply in_app_or in Hin.
  destruct Hin as [Hin | [<- | []]]; eauto.
Qed.

Lemma paired_suspend ids k c :
  (forall id, cont_id k = Some id -> In id ids) ->
  paired ids c -> paired ids (suspend k c).
Proof.
  intros Hk (Hw & Hp & Ht). repeat split; auto.
  intros k' id Hin Hid. simpl in Hin. apply in_app_or in Hin.
  destruct Hin as [Hin | [<- | []]]; eauto.
Qed.

Lemma paired_same ids c c' :
  bind_waiters c' = bind_waiters c -> pending c' = pending c -> trace c' = trace c ->
  paired ids c -> paired ids c'.
Proof. intros Hw Hp Ht H. unfold paired. now rewrite Hw, Hp, Ht. Qed.

Lemma paired_resumed ids k c :
  paired ids c -> paired ids (with_pending (delete k (pending c)) c).
Proof.
  intros (Hw & Hp & Ht). repeat split; auto.
  intros k' id Hin Hid. simpl in Hin. apply (Hp k' id); [| exact Hid].
  apply list_elem_of_In. apply list_elem_of_In in Hin.
  eapply list_elem_of_delete_inv. exact Hin.
Qed.

Lemma paired_more ids ids' c :
  (forall id, In id ids -> In id ids') -> paired ids c -> paired ids' c.
Proof. intros Hincl (Hw & Hp & Ht). repeat split; eauto. Qed.

Lemma response_id_response id o :
  response_id (WsSend (JSON_stringify (response id o))) = Some id.
Proof. destruct o as [[] | e]; reflexivity. Qed.

Lemma paired_sendMessage ids m c :
  response_id (WsSend (JSON_stringify m)) = None ->
  paired ids c -> paired ids (_sendMessage m c).
Proof.
  intros Hm H. unfold _sendMessage. destruct (ws_open c); [| exact H].
  apply paired_emit; [| exact H]. intros id Hid. congruence.
Qed.

Lemma paired_respond ids id o c :
  In id ids -> paired ids c -> paired ids (respond id o c).
Proof.
  intros Hin H. unfold respond, _sendMessage. destruct (ws_open c); [| exact H].
  apply paired_emit; [| exact H]. intros id' Hid.
  rewrite response_id_response in Hid. now injection Hid as <-.
Qed.

Lemma paired_call ids e k c :
  response_id e = None -> cont_id k = None ->
  paired ids c -> paired ids (call e k c).
Proof.
  intros He Hk H. unfold call.
  apply paired_suspend; [intros id Hid; congruence |].
  apply paired_emit; [intros id Hid; congruence | exact H].
Qed.

Lemma paired_call_for ids e k id c :
  response_id e = None -> cont_id k = Some id -> In id ids ->
  paired ids c -> paired ids (call e k c).
Proof.
  intros He Hk Hin H. unfold call.
  apply paired_suspend; [intros id' Hid; congruence |].
  apply paired_emit; [intros id' Hid; congruence | exact H].
Qed.

Lemma paired_sweep ids tabs c : paired ids c -> paired ids (sweep tabs c).
Proof.
  intros H. destruct (sweep_cases tabs c) as [-> | (tabId & rest & ->)]; [exact H |].
  now apply paired_call.
Qed.

Lemma paired_returned ids caller c : paired ids c -> paired ids (returned caller c).
Proof. intros H. destruct caller; simpl; [exact H | now apply paired_sweep]. Qed.

Lemma paired_attachToNewTab ids tabId caller c :
  paired ids c -> paired ids (_attachToNewTab tabId caller c).
Proof.
  intros H. unfold _attachToNewTab.
  destruct (attach_skipped tabId c); [now apply paired_returned | now apply paired_call].
Qed.

Lemma paired_resume ids k r c c' :
  resume k r c = Some c' ->
  (forall id, cont_id k = Some id -> In id ids) ->
  paired ids c -> paired ids c'.
Proof.
  intros Hr Hk H.
  destruct k, r; simpl in Hr; try discriminate;
    repeat match type of Hr with
           | context [match ?x with _ => _ end] => destruct x
           end;
    try discriminate; injection Hr as <-;
    repeat first
      [ exact H
      | apply paired_respond; [apply Hk; reflexivity |]
      | apply paired_returned
      | apply paired_sweep
      | apply paired_sendMessage; [reflexivity |]
      | apply paired_call; [reflexivity | reflexivity |]
      | eapply paired_call_for; [reflexivity | reflexivity | apply Hk; reflexivity |]
      | match goal with
        | |- paired _ (with_tabIdToTargetId _ ?x) =>
            apply (paired_same ids x); [reflexivity .. |]
        | |- paired _ (with_mainTabTargetId _ ?x) =>
            apply (paired_same ids x); [reflexivity .. |]
        | |- paired _ (with_childTabs _ ?x) =>
            apply (paired_same ids x); [reflexivity .. |]
        end ].
Qed.

Lemma paired_forwardCDPCommand ids id p c :
  In id ids -> paired ids c -> paired ids (forwardCDPCommand id p c).
Proof.
  intros Hin H.
  destruct (forwardCDPCommand_cases id p c) as [(m & _ & ->) | [(n & ->) | (target & ->)]].
  - now apply paired_respond.
  - now apply (paired_call_for ids _ _ id).
  - now apply (paired_call_for ids _ _ id).
Qed.

Lemma paired_handleCommand ids message c :
  In (cmd_id message) ids -> paired ids c -> paired ids (_handleCommand message c).
Proof.
  intros Hin H. unfold _handleCommand, attachToTab.
  repeat match goal with
         | |- paired _ (if ?b then _ else _) => destruct b
         end;
    first [ now apply paired_respond
          | now apply paired_forwardCDPCommand
          | now apply (paired_call_for ids _ _ (cmd_id message))
          | idtac ].
  destruct H as (Hw & Hp & Ht). repeat split; auto.
  intros id Hid. simpl in Hid. apply in_app_or in Hid.
  destruct Hid as [Hid | [<- | []]]; auto.
Qed.

Lemma paired_waiters ids waiting : forall c,
  (forall id, In id waiting -> In id ids) ->
  paired ids c -> paired ids (fold_left (fun acc id => attachToTab id acc) waiting c).
Proof.
  induction waiting as [| id waiting IH]; intros c Hw H; simpl; [exact H |].
  apply IH; [intros id' Hin; apply Hw; now right |].
  apply (paired_call_for ids _ _ id); [reflexivity | reflexivity | apply Hw; now left | exact H].
Qed.

Lemma paired_setTabId ids tabId c : paired ids c -> paired ids (setTabId tabId c).
Proof.
  intros H. unfold setTabId.
  set (c1 := with_tab_selected true (with_debuggee (Some tabId) c)).
  assert (H1 : paired ids c1) by (apply (paired_same ids c); auto).
  assert (H2 : paired ids (_checkForExistingChildTabs c1)).
  { unfold _checkForExistingChildTabs. destruct (negb (truthy_num (_debuggee c1)));
      [exact H1 | now apply paired_call]. }
  assert (Hw : bind_waiters (_checkForExistingChildTabs c1) = bind_waiters c).
  { unfold _checkForExistingChildTabs. now destruct (negb (truthy_num (_debuggee c1))). }
  apply paired_waiters.
  - rewrite Hw. apply H.
  - destruct H2 as (_ & Hp & Ht). repeat split; auto. intros id [].
Qed.

Lemma paired_onClose ids c : paired ids c -> paired ids (_onClose c).
Proof.
  intros (Hw & Hp & Ht). unfold paired.
  assert (Hfields : bind_waiters (_onClose c) = bind_waiters c
                    /\ pending (_onClose c) = pending c).
  { unfold _onClose. destruct (_closed c); [auto |]. simpl. now destruct (onclose c). }
  destruct Hfields as (-> & ->). repeat split; auto.
  intros e id Hin Hid. rewrite onClose_trace in Hin. apply in_app_or in Hin.
  destruct Hin as [Hin | Hin]; [eauto |]. exfalso.
  destruct (_closed c); [exact Hin |]. unfold teardown_effects in Hin.
  repeat (apply in_app_or in Hin; destruct Hin as [Hin | Hin]).
  - simpl in Hin. intuition (subst; discriminate).
  - apply in_map_iff in Hin. destruct Hin as (t & <- & _). discriminate Hid.
  - simpl in Hin. intuition (subst; discriminate).
  - destruct (onclose c); simpl in Hin; intuition (subst; discriminate).
Qed.

Lemma paired_close ids message c : paired ids c -> paired ids (close message c).
Proof.
  intros H. unfold close. apply paired_onClose.
  apply (paired_same ids (emit (WsClose 1000 message) c)); [reflexivity .. |].
  apply paired_emit; [discriminate | exact H].
Qed.

Lemma paired_child_gone ids tabId c : paired ids c -> paired ids (child_gone tabId c).
Proof.
  intros H. unfold child_gone. apply paired_sendMessage; [reflexivity |].
  apply (paired_same ids c); auto.
Qed.

(** A turn adds at most the identifier of the command it receives. *)
Lemma paired_step ids c e :
  paired ids c -> paired (ids ++ command_ids [e]) (step c e).
Proof.
  intros H.
  assert (H' : paired (ids ++ command_ids [e]) c)
    by (eapply paired_more; [| exact H]; intros id Hin; apply in_or_app; now left).
  destruct e; simpl step.
  - now apply paired_setTabId.
  - now apply paired_close.
  - apply paired_onClose. now apply (paired_same _ c).
  - destruct (ws_open c); [| exact H']. destruct data; simpl.
    + now apply paired_sendMessage.
    + apply paired_handleCommand; [| exact H']. apply in_or_app. right. now left.
  - destruct (listening c); [| exact H']. unfold _onDebuggerEvent.
    match goal with |- context [if ?b then _ else _] => destruct b end;
      [exact H' | now apply paired_sendMessage].
  - destruct (listening c); [| exact H']. unfold _onDebuggerDetach.
    destruct (strict_eq source (_debuggee c)).
    + apply (paired_same _ (close ("Debugger detached: " +:+ reason) c)); [reflexivity .. |].
      now apply paired_close.
    + destruct (truthy_num source && Set_has source (_childTabs c)); [| exact H'].
      destruct source; [now apply paired_child_gone | exact H'].
  - destruct (listening c); [| exact H']. unfold _onTabCreated.
    repeat match goal with
           | |- context [if ?b then _ else _] => destruct b
           | |- context [match ?x with _ => _ end] => destruct x
           end; try exact H'.
    apply paired_suspend; [discriminate |]. apply paired_emit; [discriminate | exact H'].
  - destruct (listening c); [| exact H']. unfold _onTabRemoved.
    destruct (Set_has (Some tabId) (_childTabs c)); [now apply paired_child_gone | exact H'].
  - destruct (pending c !! k) as [cont |] eqn:Hk; [| exact H'].
    destruct (resume cont r _) as [c' |] eqn:Hr; [| exact H'].
    eapply paired_resume; [exact Hr | | now apply paired_resumed].
    intros id Hid. destruct H' as (_ & Hp & _). apply (Hp cont id); [| exact Hid].
    apply list_elem_of_In. eapply list_elem_of_lookup_2. exact Hk.
  - destruct (pending c !! k) as [[] |]; try exact H'.
    apply paired_attachToNewTab. now apply paired_resumed.
Qed.

Lemma command_ids_app events1 events2 :
  command_ids (events1 ++ events2) = command_ids events1 ++ command_ids events2.
Proof. unfold command_ids. apply flat_map_app. Qed.

Lemma paired_run events : forall ids c,
  paired ids c -> paired (ids ++ command_ids events) (run c events).
Proof.
  induction events as [| e events IH]; intros ids c H.
  - simpl. now rewrite app_nil_r.
  - change (e :: events) with ([e] ++ events).
    rewrite command_ids_app, app_assoc, run_app. apply IH. now apply paired_step.
Qed.

(** ** Attach commands *)

Lemma attach_commands_wait ids : forall c,
  ws_open c = true -> tab_selected c = false ->
  run c (attach_commands ids) = with_bind_waiters (bind_waiters c ++ ids) c.
Proof.
  induction ids as [| id ids IH]; intros c Hws Hsel.
  - simpl. rewrite app_nil_r. now destruct c.
  - unfold attach_commands. rewrite map_cons, run_cons. fold (attach_commands ids).
    rewrite step_attachToTab, Hsel by exact Hws.
    rewrite IH by assumption. simpl. now rewrite <- app_assoc.
Qed.

(** When the tab is selected, each waiting command attaches. *)
Lemma waiters_attach ids : forall c,
  let c' := fold_left (fun acc id => attachToTab id acc) ids c in
  trace c' = trace c ++ List.map (fun _ => ChromeDebuggerAttach (_debuggee c)) ids
  /\ ws_open c' = ws_open c /\ tab_selected c' = tab_selected c
  /\ _debuggee c' = _debuggee c.
Proof.
  induction ids as [| id ids IH]; intros c; simpl.
  - now rewrite app_nil_r.
  - destruct (IH (attachToTab id c)) as (Ht & Hws & Hsel & Hd).
    rewrite Ht, Hws, Hsel, Hd. simpl. now rewrite <- app_assoc.
Qed.

(** With the tab selected, each [attachToTab] command attaches at once. *)
Lemma attach_commands_attach ids : forall c,
  ws_open c = true -> tab_selected c = true ->
  trace (run c (attach_commands ids))
  = trace c ++ List.map (fun _ => ChromeDebuggerAttach (_debuggee c)) ids.
Proof.
  induction ids as [| id ids IH]; intros c Hws Hsel.
  - simpl. now rewrite app_nil_r.
  - unfold attach_commands. rewrite map_cons, run_cons. fold (attach_commands ids).
    rewrite step_attachToTab, Hsel by exact Hws.
    rewrite IH by assumption. simpl. now rewrite <- app_assoc.
Qed.

(** The attach calls of a history made of [attachToTab] commands around one
    [setTabId]. *)
Lemma attach_count_of_history handler tabId early late :
  count_effect (is_attach (Some tabId))
    (trace (run (constructor handler)
              (attach_commands early ++ [SetTabId tabId] ++ attach_commands late)))
  = length (early ++ late).
Proof.
  rewrite !run_app.
  rewrite (attach_commands_wait early (constructor handler)) by reflexivity.
  change (run ?c [SetTabId tabId]) with (setTabId tabId c).
  unfold setTabId.
  set (c2 := _checkForExistingChildTabs _).
  assert (Hc2 : bind_waiters c2 = early /\ _debuggee c2 = Some tabId
                /\ ws_open c2 = true /\ tab_selected c2 = true
                /\ count_effect (is_attach (Some tabId)) (trace c2) = 0%nat).
  { subst c2. unfold _checkForExistingChildTabs. simpl.
    destruct (negb (negb (tabId =? 0))); repeat split. }
  destruct Hc2 as (Hw & Hd & Hws & Hsel & Hcount).
  rewrite Hw.
  destruct (waiters_attach early (with_bind_waiters [] c2)) as (Ht & Hws' & Hsel' & Hd').
  rewrite attach_commands_attach by (rewrite ?Hws', ?Hsel'; assumption).
  rewrite Ht, Hd'. simpl. rewrite Hd.
  rewrite !count_effect_app, !count_attach_repeat, Hcount, length_app. reflexivity.
Qed.

(** The two members the event takes from the primary target. *)
Lemma attachedToTarget_fields tabId targetInfo tab actualTargetId openerId main :
  let event := attachedToTarget tabId targetInfo tab actualTargetId openerId main in
  get_prop "openerId" (event_targetInfo event) = openerId
  /\ get_prop "browserContextId" (event_targetInfo event)
     = js_or (opt_prop "browserContextId" main) (get_prop "browserContextId" targetInfo).
Proof.
  unfold attachedToTarget, event_targetInfo, forwardCDPEvent.
  cbn [get_prop assoc String.eqb Ascii.eqb Bool.eqb].
  split.
  - rewrite assoc_set_prop_ne by discriminate. apply assoc_set_prop_eq.
  - apply assoc_set_prop_eq.
Qed.

(** * The properties of the specification *)

(** ** The not-ready error *)

(** C1 (as amended): a command other than [attachToTab], in particular
    [forwardCDPCommand], fails with the not-ready error exactly when no tab
    is selected ([_debuggee.tabId] is unset: [setTabId] was not called, or
    the primary target has detached).  It then makes no call to Chrome and
    changes nothing.  Once a tab is selected the command is dispatched,
    whether or not [attachToTab] has completed. *)
Theorem not_ready_exactly_without_tab c message :
  ws_open c = true ->
  cmd_method message <> "attachToTab" ->
  (truthy_num (_debuggee c) = false ->
   step c (WsOnMessage (Parsed message))
   = emit (WsSend (not_ready_response (cmd_id message))) c)
  /\ (truthy_num (_debuggee c) = true ->
      trace (step c (WsOnMessage (Parsed message)))
      <> trace c ++ [WsSend (not_ready_response (cmd_id message))]).
Proof.
  intros Hws Hm. simpl. rewrite Hws. simpl. split; intros Ht.
  - rewrite handleCommand_no_tab, respond_open by assumption. reflexivity.
  - now apply handleCommand_with_tab.
Qed.

Lemma not_ready_exactly_without_tab_witness :
  step (constructor true)
    (WsOnMessage (forward 7 (JStr "tab-2") (JStr "Runtime.enable") JUndefined))
  = emit (WsSend (not_ready_response 7)) (constructor true)
  /\ trace (step (run (constructor true) [SetTabId 1])
              (WsOnMessage (forward 7 JUndefined (JStr "Runtime.enable") JUndefined)))
     <> trace (run (constructor true) [SetTabId 1])
        ++ [WsSend (not_ready_response 7)].
Proof.
  split.
  - refine (proj1 (not_ready_exactly_without_tab (constructor true)
                     {| cmd_id := 7; cmd_method := "forwardCDPCommand";
                        cmd_params := _ |} _ _) _);
      [reflexivity | discriminate | reflexivity].
  - refine (proj2 (not_ready_exactly_without_tab (run (constructor true) [SetTabId 1])
                     {| cmd_id := 7; cmd_method := "forwardCDPCommand";
                        cmd_params := _ |} _ _) _);
      [reflexivity | discriminate | reflexivity].
Defined.

(** C1, counterexample: tab 1 is selected and its popup is attached by the
    sweep; no [attachToTab] command was ever received, yet a command
    forwarded to the popup's session is sent to Chrome and, when Chrome
    answers, succeeds. *)
Lemma forward_succeeds_before_bind :
  let events :=
    popup_attached
    ++ [WsOnMessage (forward 7 (JStr "tab-2") (JStr "Runtime.enable") JUndefined);
        Settled 0 (Fulfilled (JObj []))] in
  existsb is_attachToTab events = false
  /\ skipn 6 (trace (run (constructor true) events))
     = [ChromeDebuggerSendCommand (debuggee_session (Some 2))
          (JStr "Runtime.enable") JUndefined;
        WsSend (JObj [("id", JNum 7); ("result", JObj [])])].
Proof. split; vm_compute; reflexivity. Qed.

(** ** Routing a forwarded command *)




(** ** The synthesized attach event *)

(** C3 (as amended): the synthesized [Target.attachedToTarget] event
    carries as [openerId] the native target identifier of the primary
    target, as [attachToTab] recorded it from the primary target's
    descriptor or, when none is recorded, as the descriptor fetched during
    the child attach reports it; the tab identifier plays no part.  As
    [browserContextId] it carries the one of the primary target's
    descriptor, and the child's own only when the primary target's is
    missing. *)
Theorem attached_event_opener_and_context :
  (forall c k tabId targetInfo tab actualTargetId caller result,
     pending c !! k = Some (AwaitMainInfo tabId targetInfo tab actualTargetId caller) ->
     exists event,
       step c (Settled k (Fulfilled result))
       = returned caller (_sendMessage event (with_pending (delete k (pending c)) c))
       /\ get_prop "sessionId" (get_prop "params" (get_prop "params" event))
          = JStr (tab_session_id tabId)
       /\ get_prop "openerId" (event_targetInfo event)
          = js_or (_mainTabTargetId c)
              (opt_prop "targetId" (opt_prop "targetInfo" result))
       /\ get_prop "browserContextId" (event_targetInfo event)
          = js_or (opt_prop "browserContextId" (opt_prop "targetInfo" result))
              (get_prop "browserContextId" targetInfo))
  /\ (forall c k id result,
        pending c !! k = Some (AwaitBindInfo id) ->
        truthy (opt_prop "targetId" (opt_prop "targetInfo" result)) = true ->
        _mainTabTargetId (step c (Settled k (Fulfilled result)))
        = get_prop "targetId" (get_prop "targetInfo" result)).
Proof.
  split.
  - intros c k tabId targetInfo tab actualTargetId caller result Hk.
    eexists. split; [apply (step_settled k _ _ _ _ Hk); reflexivity |].
    split; [reflexivity |]. apply attachedToTarget_fields.
  - intros c k id result Hk Ht.
    erewrite (step_settled k _ _ _ _ Hk) by reflexivity.
    rewrite Ht. unfold respond, _sendMessage. simpl.
    now destruct (ws_open c).
Qed.

Lemma attached_event_opener_and_context_witness :
  let c := run (constructor true)
             (popup_found ++ [Settled 0 (Fulfilled JUndefined);
                              Settled 0 (Fulfilled (target_info "T2" "B2"));
                              Settled 0 (FulfilledTab (Some popup))]) in
  exists event,
    step c (Settled 0 (Fulfilled (target_info "T1" "B1")))
    = returned (FromSweep [])
        (_sendMessage event (with_pending (delete 0%nat (pending c)) c))
    /\ get_prop "sessionId" (get_prop "params" (get_prop "params" event))
       = JStr (tab_session_id 2)
    /\ get_prop "openerId" (event_targetInfo event)
       = js_or (_mainTabTargetId c)
           (opt_prop "targetId" (opt_prop "targetInfo" (target_info "T1" "B1")))
    /\ get_prop "browserContextId" (event_targetInfo event)
       = js_or (opt_prop "browserContextId"
                  (opt_prop "targetInfo" (target_info "T1" "B1")))
           (get_prop "browserContextId"
              (opt_prop "targetInfo" (target_info "T2" "B2"))).
Proof.
  intros c.
  refine (proj1 attached_event_opener_and_context c 0%nat 2
            (opt_prop "targetInfo" (target_info "T2" "B2")) popup
            (JStr "T2") (FromSweep []) (target_info "T1" "B1") _).
  vm_compute. reflexivity.
Defined.

(** C3, counterexample: the popup's own descriptor has the browser context
    "B2" and the primary target's has "B1"; the event for the popup carries
    "B1". *)
Lemma child_context_replaced_by_primary :
  exists event,
    last (trace (run (constructor true) popup_attached)) = Some (WsSend event)
    /\ get_prop "browserContextId" (get_prop "targetInfo" (target_info "T2" "B2"))
       = JStr "B2"
    /\ get_prop "browserContextId" (event_targetInfo event) = JStr "B1".
Proof. eexists. split; [| split]; vm_compute; reflexivity. Qed.

(** ** The bookkeeping of a child attach *)




(** ** Closing with an attach call in flight *)

(** C5, the code at the failing input: the popup's attach call is in flight
    when the connection is closed.  Right after the close the child set and
    the target map are empty; when the call succeeds the procedure goes on
    as if the connection were open: it puts the popup into the child set,
    asks Chrome for its descriptor and its tab, and records its target
    identifier, on a connection whose closed flag is set. *)
Lemma closed_connection_gains_child :
  let closed := run (constructor true) (popup_found ++ [Close "done"]) in
  let c := run (constructor true) closed_during_attach in
  (_closed closed = true /\ _childTabs closed = [] /\ _tabIdToTargetId closed = ∅)
  /\ _closed c = true
  /\ _childTabs c = [2]
  /\ _tabIdToTargetId c !! Some 2 = Some (JStr "T2")
  /\ skipn 9 (trace c)
     = [getTargetInfo (Some 2); ChromeTabsGet 2; getTargetInfo (Some 1)].
Proof.
  split; [split; [| split] | split; [| split; [| split]]]; vm_compute; reflexivity.
Qed.

(** ** Attaching to the primary target *)

(** C6 (as amended): [attachToTab] has no guard.  Every [attachToTab]
    command calls [chrome.debugger.attach] on the primary target once: a
    command received while a tab is selected does so at once, whatever
    happened before, and the commands received before the tab is selected
    do so when it is selected.  So the number of attach calls on the primary
    target is the number of commands, not at most one. *)
Theorem attach_once_per_command :
  (forall c ids,
     ws_open c = true -> tab_selected c = true ->
     trace (run c (attach_commands ids))
     = trace c ++ List.map (fun _ => ChromeDebuggerAttach (_debuggee c)) ids)
  /\ (forall handler tabId early late,
        count_effect (is_attach (Some tabId))
          (trace (run (constructor handler)
                    (attach_commands early ++ [SetTabId tabId] ++ attach_commands late)))
        = length (early ++ late)).
Proof.
  split.
  - intros c ids. apply attach_commands_attach.
  - apply attach_count_of_history.
Qed.

Lemma attach_once_per_command_witness :
  let c := run (constructor true) [SetTabId 1] in
  trace (run c (attach_commands [1; 2]))
  = trace c ++ [ChromeDebuggerAttach (Some 1); ChromeDebuggerAttach (Some 1)].
Proof.
  exact (proj1 attach_once_per_command (run (constructor true) [SetTabId 1]) [1; 2]
           eq_refl eq_refl).
Defined.

(** C6, counterexample: tab 1 is selected and two [attachToTab] commands
    arrive; [chrome.debugger.attach] is called on tab 1 twice. *)
Lemma primary_attached_twice :
  trace (run (constructor true) [SetTabId 1; WsOnMessage (attach_to_tab 1);
                                 WsOnMessage (attach_to_tab 2)])
  = [ChromeTabsQuery; ChromeDebuggerAttach (Some 1); ChromeDebuggerAttach (Some 1)].
Proof. vm_compute. reflexivity. Qed.

(** ** Teardown *)

(** C7: teardown, however triggered and even if triggered twice, is
    performed exactly once.  [_onClose] on an open connection unsubscribes
    the four listeners, then detaches every tracked child, clears the child
    set and the target map, detaches the primary target and calls the
    [onclose] handler, in this order; on a closed connection it does nothing.
    [close], the socket's close event and a detach of the primary target all
    go through it, and over any history the trace holds the four
    unsubscriptions and the handler call once when the connection is closed
    and not at all before.  The child set never lists a tab twice, so the
    teardown detaches each tracked child once. *)
Theorem teardown_exactly_once :
  (forall c,
     trace (_onClose c) = trace c ++ (if _closed c then [] else teardown_effects c)
     /\ _closed (_onClose c) = true
     /\ listening (_onClose c) = (if _closed c then listening c else false)
     /\ _childTabs (_onClose c) = (if _closed c then _childTabs c else [])
     /\ _tabIdToTargetId (_onClose c) = (if _closed c then _tabIdToTargetId c else ∅)
     /\ _onClose (_onClose c) = _onClose c)
  /\ (forall c message,
        trace (step c (Close message))
        = trace c ++ [WsClose 1000 message]
          ++ (if _closed c then [] else teardown_effects c))
  /\ (forall c,
        trace (step c WsOnClose)
        = trace c ++ (if _closed c then [] else teardown_effects c))
  /\ (forall c reason,
        trace (step c (DebuggerOnDetach (_debuggee c) reason))
        = trace c
          ++ (if listening c
              then [WsClose 1000 ("Debugger detached: " +:+ reason)]
                   ++ (if _closed c then [] else teardown_effects c)
              else []))
  /\ (forall handler events,
        let c := run (constructor handler) events in
        count_effect is_remove_listener (trace c) = (if _closed c then 4 else 0)%nat
        /\ count_effect is_onclose (trace c)
           = (if _closed c && handler then 1 else 0)%nat
        /\ NoDup (_childTabs c)).
Proof.
  split; [| split; [| split; [| split]]].
  - intros c. pose proof (onClose_fields c) as (Hl & Hc & Hm).
    repeat split; auto using onClose_trace, onClose_sets_closed.
    apply onClose_closed, onClose_sets_closed.
  - intros c message. simpl. unfold close. rewrite onClose_trace. simpl.
    now rewrite <- app_assoc.
  - intros c. simpl. now rewrite onClose_trace.
  - intros c reason. simpl. destruct (listening c); [| now rewrite app_nil_r].
    unfold _onDebuggerDetach.
    assert (Heq : strict_eq (_debuggee c) (_debuggee c) = true)
      by (destruct (_debuggee c); simpl; [apply Z.eqb_refl | reflexivity]).
    rewrite Heq. unfold close. simpl. rewrite onClose_trace. simpl.
    now rewrite <- app_assoc.
  - intros handler events c.
    assert (H : teardown_once handler c).
    { apply teardown_once_run. repeat split. }
    destruct H as (_ & H1 & H4). repeat split; auto.
    apply childTabs_NoDup_run. constructor.
Qed.

(** ** Detaching a child on request *)

(** C8: with a tab selected, a forwarded [Target.detachFromTarget] whose
    parameters name the session of a known child makes the relay call
    [chrome.debugger.detach] on that child's tab, and nothing else: no
    command is sent to Chrome.  When that call is fulfilled the child is
    removed from the child set and from the target map, the other children
    and entries stay, and the response to the command carries the empty
    object as its result.  (When Chrome rejects the call, its error is the
    response and the bookkeeping is left as it is.) *)
Theorem detach_known_child c id props rest n :
  ws_open c = true ->
  truthy_num (_debuggee c) = true ->
  is_string "Target.detachFromTarget" (assoc "method" props) = true ->
  get_prop "sessionId" (assoc "params" props) = JStr ("tab-" +:+ rest) ->
  parseInt rest = Some n ->
  In n (_childTabs c) ->
  step c (WsOnMessage (Parsed {| cmd_id := id; cmd_method := "forwardCDPCommand";
                                 cmd_params := JObj props |}))
  = suspend (AwaitChildDetach id n) (emit (ChromeDebuggerDetach (Some n)) c)
  /\ (forall k v c1,
        pending c1 !! k = Some (AwaitChildDetach id n) -> ws_open c1 = true ->
        let c2 := step c1 (Settled k (Fulfilled v)) in
        ~ In n (_childTabs c2)
        /\ _tabIdToTargetId c2 !! Some n = None
        /\ (forall m, m <> n -> (In m (_childTabs c2) <-> In m (_childTabs c1)))
        /\ (forall m, m <> Some n -> _tabIdToTargetId c2 !! m = _tabIdToTargetId c1 !! m)
        /\ trace c2 = trace c1 ++ [WsSend (JObj [("id", JNum id); ("result", JObj [])])])
  /\ (forall k message c1,
        pending c1 !! k = Some (AwaitChildDetach id n) -> ws_open c1 = true ->
        step c1 (Settled k (Rejected message))
        = emit (WsSend (JObj [("id", JNum id); ("error", JStr message)]))
            (with_pending (delete k (pending c1)) c1)).
Proof.
  intros Hws Ht Hm Hs Hp Hin. split; [| split].
  - simpl. rewrite Hws. unfold _handleCommand. simpl. rewrite Ht. simpl.
    rewrite Hm, (route_detach_child _ rest n c Hs Hp Hin). reflexivity.
  - intros k v c1 Hk Hws1 c2. subst c2.
    erewrite (step_settled k _ _ _ _ Hk) by reflexivity.
    unfold respond, _sendMessage. simpl. rewrite Hws1. simpl.
    split; [| split; [| split; [| split]]].
    + rewrite Set_delete_In. tauto.
    + apply lookup_delete_eq.
    + intros m Hne. rewrite Set_delete_In. tauto.
    + intros m Hne. apply lookup_delete_ne. congruence.
    + reflexivity.
  - intros k message c1 Hk Hws1.
    apply (step_settled k _ _ _ _ Hk). simpl.
    unfold respond, _sendMessage. simpl. now rewrite Hws1.
Qed.

Lemma detach_known_child_witness :
  let c := run (constructor true) popup_attached in
  let c1 :=
    step c (WsOnMessage
              (forward 8 JUndefined (JStr "Target.detachFromTarget")
                 (JObj [("sessionId", JStr "tab-2")]))) in
  c1 = suspend (AwaitChildDetach 8 2) (emit (ChromeDebuggerDetach (Some 2)) c)
  /\ let c2 := step c1 (Settled 0 (Fulfilled JUndefined)) in
     ~ In 2 (_childTabs c2)
     /\ _tabIdToTargetId c2 !! Some 2 = None
     /\ trace c2 = trace c1 ++ [WsSend (JObj [("id", JNum 8); ("result", JObj [])])].
Proof.
  intros c c1.
  assert (H := detach_known_child c 8
                 [("sessionId", JUndefined);
                  ("method", JStr "Target.detachFromTarget");
                  ("params", JObj [("sessionId", JStr "tab-2")])] "2" 2).
  destruct H as (Hcall & Hdone & _).
  - vm_compute. reflexivity.
  - vm_compute. reflexivity.
  - vm_compute. reflexivity.
  - vm_compute. reflexivity.
  - vm_compute. reflexivity.
  - vm_compute. left. reflexivity.
  - split; [exact Hcall |].
    destruct (Hdone 0%nat JUndefined c1) as (Hgone & Hmap & _ & _ & Htrace).
    + vm_compute. reflexivity.
    + vm_compute. reflexivity.
    + auto.
Defined.

(** ** Responses *)

(** C9 (as amended): the response to a command carries the identifier of
    the command and never both [result] and [error]; indeed nothing the
    connection ever sends carries both, and whatever it sends with an
    identifier carries the identifier of a command of its history.  The
    response carries one of [result] and [error] unless the
    command completed with [undefined], which [JSON.stringify] leaves out:
    the response then carries the identifier alone.  That is the case for
    every method other than [attachToTab] and [forwardCDPCommand] received
    while a tab is selected (and for a forwarded command that Chrome answers
    with [undefined]); [attachToTab] always completes with an object. *)
Theorem response_result_or_error :
  (forall id o,
     let doc := JSON_stringify (response id o) in
     get_prop "id" doc = JNum id
     /\ has_both doc = false
     /\ has_member "result" doc || has_member "error" doc = negb (returns_undefined o))
  /\ (forall handler events doc,
        In (WsSend doc) (trace (run (constructor handler) events)) ->
        has_both doc = false
        /\ forall id, get_prop "id" doc = JNum id -> In id (command_ids events))
  /\ (forall c message,
        ws_open c = true -> truthy_num (_debuggee c) = true ->
        cmd_method message <> "attachToTab" ->
        cmd_method message <> "forwardCDPCommand" ->
        step c (WsOnMessage (Parsed message))
        = emit (WsSend (JObj [("id", JNum (cmd_id message))])) c)
  /\ (forall c k id result,
        pending c !! k = Some (AwaitBindInfo id) ->
        exists targetInfo c1,
          step c (Settled k (Fulfilled result))
          = respond id (Return (JObj [("targetInfo", targetInfo)])) c1).
Proof.
  split; [| split; [| split]].
  - intros id o. destruct o as [[] | e]; repeat split.
  - intros handler events doc Hin. split.
    + revert doc Hin. apply sends_well_formed_run. intros doc [].
    + intros id Hid.
      assert (H : paired ([] ++ command_ids events) (run (constructor handler) events)).
      { apply paired_run. split; [intros ? [] | split; intros ? ? []]. }
      destruct H as (_ & _ & Ht). apply (Ht (WsSend doc) id Hin).
      simpl. now rewrite Hid.
  - intros c message Hws Ht Ha Hf. simpl. rewrite Hws. unfold _handleCommand.
    apply String.eqb_neq in Ha, Hf. rewrite Ha, Hf, Ht. simpl.
    now rewrite respond_open.
  - intros c k id result Hk. do 2 eexists.
    apply (step_settled k _ _ _ _ Hk). reflexivity.
Qed.

Lemma response_result_or_error_witness :
  (forall doc,
     In (WsSend doc) (trace (run (constructor true) popup_attached)) ->
     has_both doc = false
     /\ forall id, get_prop "id" doc = JNum id -> In id (command_ids popup_attached))
  /\ step (run (constructor true) [SetTabId 1])
       (WsOnMessage (Parsed {| cmd_id := 3; cmd_method := "Browser.getVersion";
                               cmd_params := JUndefined |}))
     = emit (WsSend (JObj [("id", JNum 3)])) (run (constructor true) [SetTabId 1]).
Proof.
  split.
  - exact (proj1 (proj2 response_result_or_error) true popup_attached).
  - refine (proj1 (proj2 (proj2 response_result_or_error))
              (run (constructor true) [SetTabId 1])
              {| cmd_id := 3; cmd_method := "Browser.getVersion";
                 cmd_params := JUndefined |} _ _ _ _).
    + vm_compute. reflexivity.
    + vm_compute. reflexivity.
    + discriminate.
    + discriminate.
Defined.

(** C9, counterexample: tab 1 is selected and the command 3 has a method
    the relay does not know; the response carries the identifier and
    neither [result] nor [error]. *)
Lemma unknown_method_response_has_neither :
  let c := run (constructor true) [SetTabId 1] in
  exists doc,
    trace (step c (WsOnMessage
                     (Parsed {| cmd_id := 3; cmd_method := "Browser.getVersion";
                                cmd_params := JUndefined |})))
    = trace c ++ [WsSend doc]
    /\ get_prop "id" doc = JNum 3
    /\ has_member "result" doc = false
    /\ has_member "error" doc = false.
Proof. eexists. split; [| split; [| split]]; vm_compute; reflexivity. Qed.

(** ** A detach notification without a tab *)

(** C10: a detach notification whose source has no tab identifier, arriving
    while no tab is selected, passes the test [source.tabId ===
    this._debuggee.tabId] and closes the connection: the socket is closed
    and the whole teardown runs, though nothing was ever attached. *)
Theorem detach_without_tab_closes c reason :
  listening c = true ->
  _debuggee c = None ->
  _closed c = false ->
  let c' := step c (DebuggerOnDetach None reason) in
  _closed c' = true
  /\ ws_open c' = false
  /\ listening c' = false
  /\ _childTabs c' = []
  /\ _tabIdToTargetId c' = ∅
  /\ trace c'
     = trace c ++ [WsClose 1000 ("Debugger detached: " +:+ reason)]
       ++ teardown_effects c.
Proof.
  intros Hl Hd Hc c'. subst c'. simpl. rewrite Hl.
  unfold _onDebuggerDetach. rewrite Hd. simpl. unfold close.
  set (c0 := with_ws_open false _).
  pose proof (onClose_fields c0) as (Hl' & Hc' & Hm').
  assert (Hc0 : _closed c0 = false) by exact Hc.
  rewrite Hc0 in Hl', Hc', Hm'.
  repeat split.
  - apply onClose_sets_closed.
  - unfold _onClose. rewrite Hc0. simpl. now destruct (onclose c).
  - exact Hl'.
  - exact Hc'.
  - exact Hm'.
  - rewrite onClose_trace, Hc0. subst c0. simpl. now rewrite <- app_assoc.
Qed.

Lemma detach_without_tab_closes_witness :
  let c' := step (constructor true) (DebuggerOnDetach None "target_closed") in
  _closed c' = true
  /\ ws_open c' = false
  /\ listening c' = false
  /\ _childTabs c' = []
  /\ _tabIdToTargetId c' = ∅
  /\ trace c'
     = [WsClose 1000 "Debugger detached: target_closed";
        RemoveListener OnEvent; RemoveListener OnDetach;
        RemoveListener OnCreated; RemoveListener OnRemoved;
        ChromeDebuggerDetach None; Onclose].
Proof.
  exact (detach_without_tab_closes (constructor true) "target_closed"
           eq_refl eq_refl eq_refl).
Defined.

(** * The rest of the class *)

(** ** Lists of suspended methods *)

Lemma lookup_last_suspended (l : list Cont) k : (l ++ [k]) !! length l = Some k.
Proof. now rewrite list_lookup_middle. Qed.

Lemma delete_last_suspended (l : list Cont) k : delete (length l) (l ++ [k]) = l.
Proof.
  induction l as [| x l IH]; simpl; [reflexivity |]. now rewrite IH.
Qed.

Lemma Set_has_delete n l : Set_has (Some n) (Set_delete n l) = false.
Proof.
  destruct (Set_has (Some n) (Set_delete n l)) eqn:E; [| reflexivity].
  apply Set_has_In, Set_delete_In in E. now destruct E.
Qed.

Lemma strict_eq_false a b : a <> b -> strict_eq a b = false.
Proof.
  destruct a as [x |], b as [y |]; simpl; intros H; try reflexivity; try congruence.
  apply Z.eqb_neq. congruence.
Qed.

Lemma strict_eq_true a b : strict_eq a b = true -> a = b.
Proof.
  destruct a as [x |], b as [y |]; simpl; intros H; try reflexivity; try discriminate.
  apply Z.eqb_eq in H. now subst.
Qed.

Lemma emit_all_nil c : emit_all [] c = c.
Proof. destruct c. unfold emit_all, with_trace. simpl. now rewrite app_nil_r. Qed.

Lemma emit_all_cons e es c : emit_all es (emit e c) = emit_all (e :: es) c.
Proof.
  destruct c. unfold emit_all, emit, with_trace. simpl. now rewrite <- app_assoc.
Qed.

(** What [child_gone] leaves alone. *)
Lemma child_gone_fields tabId c :
  listening (child_gone tabId c) = listening c
  /\ _debuggee (child_gone tabId c) = _debuggee c
  /\ _childTabs (child_gone tabId c) = Set_delete tabId (_childTabs c).
Proof.
  unfold child_gone, _sendMessage.
  match goal with |- context [if ?b then _ else _] => destruct b end;
    repeat split.
Qed.

(** ** Turns that leave the flags alone *)

Lemma calm_refl c : calm c c.
Proof.
  split; [reflexivity |]. exists []. split; [now rewrite app_nil_r | constructor].
Qed.

Lemma calm_ws_open c0 c : calm c0 c -> ws_open c = ws_open c0.
Proof. intros (Hf & _). now injection Hf. Qed.

Lemma calm_emit e c0 c : is_send e = false -> calm c0 c -> calm c0 (emit e c).
Proof.
  intros He (Hf & es & Ht & Hes). split; [exact Hf |].
  exists (es ++ [e]). split; [simpl; rewrite Ht; now rewrite <- app_assoc |].
  intros Hws. apply Forall_app. split; [auto | now constructor].
Qed.

Lemma calm_same c0 c c' :
  flags c' = flags c -> trace c' = trace c -> calm c0 c -> calm c0 c'.
Proof.
  intros Hf Ht (Hf0 & es & Ht0 & Hes). split; [congruence |].
  exists es. split; [congruence | exact Hes].
Qed.

Lemma calm_sendMessage m c0 c : calm c0 c -> calm c0 (_sendMessage m c).
Proof.
  intros H. unfold _sendMessage. destruct (ws_open c) eqn:Hws; [| exact H].
  pose proof (calm_ws_open _ _ H) as Hsame.
  destruct H as (Hf & es & Ht & Hes). split; [exact Hf |].
  exists (es ++ [WsSend (JSON_stringify m)]).
  split; [simpl; rewrite Ht; now rewrite <- app_assoc |].
  intros Hclosed. congruence.
Qed.

Lemma calm_respond id o c0 c : calm c0 c -> calm c0 (respond id o c).
Proof. apply calm_sendMessage. Qed.

Lemma calm_call e k c0 c : is_send e = false -> calm c0 c -> calm c0 (call e k c).
Proof.
  intros He H. unfold call.
  apply (calm_same c0 (emit e c)); [reflexivity | reflexivity |].
  now apply calm_emit.
Qed.

Lemma calm_sweep tabs c0 c : calm c0 c -> calm c0 (sweep tabs c).
Proof.
  intros H. destruct (sweep_cases tabs c) as [-> | (tabId & rest & ->)]; [exact H |].
  now apply calm_call.
Qed.

Lemma calm_returned caller c0 c : calm c0 c -> calm c0 (returned caller c).
Proof. intros H. destruct caller; simpl; [exact H | now apply calm_sweep]. Qed.

Lemma calm_attachToNewTab tabId caller c0 c :
  calm c0 c -> calm c0 (_attachToNewTab tabId caller c).
Proof.
  intros H. unfold _attachToNewTab.
  destruct (attach_skipped tabId c); [now apply calm_returned | now apply calm_call].
Qed.

Lemma calm_resume k r c0 c c' : resume k r c = Some c' -> calm c0 c -> calm c0 c'.
Proof.
  intros Hr H.
  destruct k, r; simpl in Hr; try discriminate;
    repeat match type of Hr with
           | context [match ?x with _ => _ end] => destruct x
           end;
    try discriminate; injection Hr as <-;
    repeat first
      [ exact H
      | apply calm_respond
      | apply calm_returned
      | apply calm_sweep
      | apply calm_sendMessage
      | apply calm_call; [reflexivity |]
      | match goal with
        | |- calm _ (with_tabIdToTargetId _ ?x) =>
            apply (calm_same c0 x); [reflexivity | reflexivity |]
        | |- calm _ (with_mainTabTargetId _ ?x) =>
            apply (calm_same c0 x); [reflexivity | reflexivity |]
        | |- calm _ (with_childTabs _ ?x) =>
            apply (calm_same c0 x); [reflexivity | reflexivity |]
        end ].
Qed.

Lemma calm_handleCommand message c0 c : calm c0 c -> calm c0 (_handleCommand message c).
Proof.
  intros H. unfold _handleCommand, attachToTab.
  repeat match goal with
         | |- calm _ (if ?b then _ else _) => destruct b
         end;
    try (now apply calm_respond); try (now apply calm_call).
  - now apply (calm_same c0 c).
  - destruct (forwardCDPCommand_cases (cmd_id message) (cmd_params message) c)
      as [(m & _ & ->) | [(n & ->) | (target & ->)]];
      [now apply calm_respond | now apply calm_call | now apply calm_call].
Qed.

Lemma calm_waiters ids : forall c0 c,
  calm c0 c -> calm c0 (fold_left (fun acc id => attachToTab id acc) ids c).
Proof.
  induction ids as [| id ids IH]; intros c0 c H; simpl; [exact H |].
  apply IH. unfold attachToTab. now apply calm_call.
Qed.

Lemma calm_setTabId tabId c0 c : calm c0 c -> calm c0 (setTabId tabId c).
Proof.
  intros H. unfold setTabId. apply calm_waiters.
  match goal with
  | |- calm _ (with_bind_waiters _ ?x) => apply (calm_same c0 x); [reflexivity .. |]
  end.
  unfold _checkForExistingChildTabs.
  match goal with |- context [if ?b then _ else _] => destruct b end;
    [| apply calm_call; [reflexivity |]];
    now apply (calm_same c0 c).
Qed.

Lemma calm_child_gone tabId c0 c : calm c0 c -> calm c0 (child_gone tabId c).
Proof.
  intros H. unfold child_gone. apply calm_sendMessage.
  now apply (calm_same c0 c).
Qed.

(** [_onClose] does not touch the socket. *)
Lemma onClose_ws_open c : ws_open (_onClose c) = ws_open c.
Proof.
  unfold _onClose. destruct (_closed c); [reflexivity |].
  simpl. destruct (onclose c); reflexivity.
Qed.

Lemma teardown_effects_no_send c :
  Forall (fun e => is_send e = false) (teardown_effects c).
Proof.
  unfold teardown_effects. repeat apply Forall_app_2.
  - repeat constructor.
  - induction (_childTabs c); simpl; constructor; auto.
  - repeat constructor.
  - destruct (onclose c); repeat constructor.
Qed.

(** [_onClose] after the socket stopped being open is a closing turn. *)
Lemma closing_onClose c c0 es :
  ws_open c0 = false -> _closed c0 = _closed c -> listening c0 = listening c ->
  trace c0 = trace c ++ es -> Forall (fun e => is_send e = false) es ->
  closing c (_onClose c0).
Proof.
  intros Hws Hc Hl Ht Hes. destruct (onClose_fields c0) as (Hl' & _ & _).
  split; [now rewrite onClose_ws_open |].
  split; [apply onClose_sets_closed |].
  split; [now rewrite Hl', Hc, Hl |].
  exists (es ++ (if _closed c0 then [] else teardown_effects c0)).
  split; [rewrite onClose_trace, Ht; now rewrite <- app_assoc |].
  apply Forall_app. split; [exact Hes |].
  destruct (_closed c0); [constructor | apply teardown_effects_no_send].
Qed.

(** Every turn leaves the flags alone or closes. *)
Lemma step_calm_or_closing c e : calm c (step c e) \/ closing c (step c e).
Proof.
  destruct e; cbn [step].
  - left. apply calm_setTabId, calm_refl.
  - right. unfold close.
    apply (closing_onClose c _ [WsClose 1000 message]); try reflexivity.
    repeat constructor.
  - right. apply (closing_onClose c _ []); try reflexivity.
    + simpl. now rewrite app_nil_r.
    + constructor.
  - left. destruct (ws_open c); [| apply calm_refl]. destruct data; simpl.
    + apply calm_sendMessage, calm_refl.
    + apply calm_handleCommand, calm_refl.
  - left. destruct (listening c); [| apply calm_refl]. unfold _onDebuggerEvent.
    match goal with |- context [if ?b then _ else _] => destruct b end;
      [apply calm_refl | apply calm_sendMessage, calm_refl].
  - destruct (listening c) eqn:Hl; [| left; apply calm_refl].
    unfold _onDebuggerDetach. destruct (strict_eq source (_debuggee c)).
    + right. unfold close.
      pose proof (closing_onClose c
                    (with_ws_open false
                       (emit (WsClose 1000 ("Debugger detached: " +:+ reason)) c))
                    [WsClose 1000 ("Debugger detached: " +:+ reason)]
                    eq_refl eq_refl eq_refl eq_refl) as H.
      destruct H as (Hws & Hc & Hl' & Hes); [repeat constructor |].
      repeat split; assumption.
    + left. destruct (truthy_num source && Set_has source (_childTabs c));
        [| apply calm_refl].
      destruct source; [apply calm_child_gone |]; apply calm_refl.
  - left. destruct (listening c); [| apply calm_refl]. unfold _onTabCreated.
    repeat match goal with
           | |- context [if ?b then _ else _] => destruct b
           | |- context [match ?x with _ => _ end] => destruct x
           end; try apply calm_refl.
    apply (calm_same c (emit (SetTimeout 200) c)); [reflexivity .. |].
    apply calm_emit; [reflexivity | apply calm_refl].
  - left. destruct (listening c); [| apply calm_refl]. unfold _onTabRemoved.
    destruct (Set_has (Some tabId) (_childTabs c));
      [apply calm_child_gone |]; apply calm_refl.
  - left. destruct (pending c !! k) as [cont |]; [| apply calm_refl].
    destruct (resume cont r _) as [c' |] eqn:Hr; [| apply calm_refl].
    eapply calm_resume; [exact Hr |].
    apply (calm_same c c); [reflexivity .. | apply calm_refl].
  - left. destruct (pending c !! k) as [[] |]; try apply calm_refl.
    apply calm_attachToNewTab.
    apply (calm_same c c); [reflexivity .. | apply calm_refl].
Qed.

Lemma open_or_closed_step c e : open_or_closed c -> open_or_closed (step c e).
Proof.
  intros (Hl & Hws).
  destruct (step_calm_or_closing c e) as [(Hf & _) | (Hws' & Hc' & Hl' & _)].
  - injection Hf as Hl' Hws' Hc'. unfold open_or_closed. now rewrite Hl', Hws', Hc'.
  - unfold open_or_closed. rewrite Hws', Hc', Hl', Hl.
    now destruct (_closed c).
Qed.

Lemma open_or_closed_run events : forall c,
  open_or_closed c -> open_or_closed (run c events).
Proof.
  induction events as [| e events IH]; intros c H; simpl; [exact H |].
  apply IH. now apply open_or_closed_step.
Qed.

(** With the socket not open, a turn sends nothing, and a closed connection
    stays closed. *)
Lemma silent_step c e :
  ws_open c = false ->
  ws_open (step c e) = false
  /\ List.filter is_send (trace (step c e)) = List.filter is_send (trace c)
  /\ (_closed c = true -> _closed (step c e) = true).
Proof.
  intros Hws.
  assert (Hnone : forall es, Forall (fun e => is_send e = false) es ->
                    List.filter is_send es = []).
  { induction 1 as [| x es Hx _ IH]; simpl; [reflexivity |]. now rewrite Hx. }
  destruct (step_calm_or_closing c e)
    as [(Hf & es & Ht & Hes) | (Hws' & Hc' & _ & es & Ht & Hes)].
  - injection Hf as _ Hws' Hc'. rewrite Hws', Hc', Ht, List.filter_app.
    rewrite (Hnone es (Hes Hws)), app_nil_r. auto.
  - rewrite Ht, List.filter_app, (Hnone es Hes), app_nil_r. auto.
Qed.

Lemma silent_run events : forall c,
  ws_open c = false ->
  List.filter is_send (trace (run c events)) = List.filter is_send (trace c)
  /\ (_closed c = true -> _closed (run c events) = true).
Proof.
  induction events as [| e events IH]; intros c Hws; simpl; [auto |].
  destruct (silent_step c e Hws) as (Hws' & Hsame & Hc).
  destruct (IH (step c e) Hws') as (Hsame' & Hc').
  split; [congruence | auto].
Qed.

(** ** The sweep *)

Lemma sweep_skips tabs : forall c,
  Forall (fun tab => attachable c tab = false) tabs -> sweep tabs c = c.
Proof.
  induction tabs as [| tab rest IH]; intros c H; simpl; [reflexivity |].
  apply Forall_cons in H. destruct H as (Htab & Hrest).
  unfold attachable in Htab.
  destruct (truthy_num (tab_id tab) && strict_eq (tab_openerTabId tab) (_debuggee c));
    [| now apply IH].
  destruct (tab_id tab) as [tabId |]; [| now apply IH].
  simpl in Htab. apply negb_false_iff in Htab. rewrite Htab. now apply IH.
Qed.

Lemma sweep_reaches skipped : forall tab tabId rest c,
  Forall (fun t => attachable c t = false) skipped ->
  attachable c tab = true -> tab_id tab = Some tabId ->
  sweep (skipped ++ tab :: rest) c
  = call (ChromeDebuggerAttach (Some tabId)) (AwaitChildAttach tabId (FromSweep rest)) c.
Proof.
  induction skipped as [| t skipped IH]; intros tab tabId rest c Hskip Htab Hid.
  - simpl. unfold attachable in Htab. rewrite Hid in *.
    apply andb_true_iff in Htab. destruct Htab as (-> & Hnot).
    apply negb_true_iff in Hnot. now rewrite Hnot.
  - apply Forall_cons in Hskip. destruct Hskip as (Ht & Hskip).
    change ((t :: skipped) ++ tab :: rest) with ([t] ++ (skipped ++ tab :: rest)).
    simpl. unfold attachable in Ht.
    destruct (truthy_num (tab_id t) && strict_eq (tab_openerTabId t) (_debuggee c));
      [| now apply IH].
    destruct (tab_id t) as [tid |]; [| now apply IH].
    simpl in Ht. apply negb_false_iff in Ht. rewrite Ht. now apply IH.
Qed.

(** [_onClose] leaves the suspended methods where they are. *)
Lemma onClose_pending c : pending (_onClose c) = pending c.
Proof.
  unfold _onClose. destruct (_closed c); [reflexivity |].
  simpl. now destruct (onclose c).
Qed.

(** The turn that settles the promise of the method suspended last. *)
Lemma step_settled_last l cont r c c' :
  pending c = l ++ [cont] ->
  resume cont r (with_pending l c) = Some c' ->
  step c (Settled (length l) r) = c'.
Proof.
  intros Hp Hr. apply (step_settled (length l) cont).
  - rewrite Hp. apply lookup_last_suspended.
  - rewrite Hp, delete_last_suspended. exact Hr.
Qed.

(** ** Counting answers *)

Lemma owed_emit id e c :
  owed id (emit e c) = (owed id c + Nat.b2n (answers id e))%nat.
Proof.
  unfold owed. simpl. rewrite count_effect_app. unfold count_effect at 2. simpl.
  destruct (answers id e); simpl; lia.
Qed.

Lemma owed_suspend id k c :
  owed id (suspend k c) = (owed id c + Nat.b2n (awaits id k))%nat.
Proof.
  unfold owed. simpl. rewrite List.filter_app, length_app. simpl.
  destruct (awaits id k); simpl; lia.
Qed.

Lemma owed_same id c c' :
  bind_waiters c' = bind_waiters c -> pending c' = pending c -> trace c' = trace c ->
  owed id c' = owed id c.
Proof. intros Hw Hp Ht. unfold owed. now rewrite Hw, Hp, Ht. Qed.

Lemma owed_call id e k c :
  answers id e = false ->
  owed id (call e k c) = (owed id c + Nat.b2n (awaits id k))%nat.
Proof.
  intros He. unfold call. rewrite owed_suspend, owed_emit, He. simpl. lia.
Qed.

Lemma owed_sendMessage id m c :
  (owed id (_sendMessage m c)
   <= owed id c + Nat.b2n (answers id (WsSend (JSON_stringify m))))%nat.
Proof.
  unfold _sendMessage. destruct (ws_open c); [rewrite owed_emit |]; lia.
Qed.

Lemma answers_response id id' o :
  answers id (WsSend (JSON_stringify (response id' o))) = (id =? id').
Proof. unfold answers. now rewrite response_id_response. Qed.

Lemma owed_respond id id' o c :
  (owed id (respond id' o c) <= owed id c + Nat.b2n (Z.eqb id id'))%nat.
Proof.
  unfold respond. pose proof (owed_sendMessage id (response id' o) c) as H.
  now rewrite answers_response in H.
Qed.

Lemma owed_sweep id tabs c : owed id (sweep tabs c) = owed id c.
Proof.
  destruct (sweep_cases tabs c) as [-> | (tabId & rest & ->)]; [reflexivity |].
  rewrite owed_call by reflexivity. simpl. lia.
Qed.

Lemma owed_returned id caller c : owed id (returned caller c) = owed id c.
Proof. destruct caller; [reflexivity | apply owed_sweep]. Qed.

Lemma owed_attachToNewTab id tabId caller c :
  owed id (_attachToNewTab tabId caller c) = owed id c.
Proof.
  unfold _attachToNewTab. destruct (attach_skipped tabId c);
    [apply owed_returned |]. rewrite owed_call by reflexivity. simpl. lia.
Qed.

(** A resumed method answers its own command at most once, or suspends
    again, and answers no other. *)
Lemma owed_resume id k r c c' :
  resume k r c = Some c' ->
  (owed id c' <= owed id c + Nat.b2n (awaits id k))%nat.
Proof.
  intros Hr.
  destruct k, r; simpl in Hr; try discriminate;
    repeat match type of Hr with
           | context [match ?x with _ => _ end] => destruct x
           end;
    try discriminate; injection Hr as <-;
    unfold getTargetInfo;
    repeat first
      [ rewrite owed_returned
      | rewrite owed_sweep
      | rewrite owed_call by reflexivity
      | match goal with
        | |- context [owed id (respond ?i ?o ?x)] =>
            pose proof (owed_respond id i o x); generalize dependent (respond i o x);
            intros
        | |- context [owed id (_sendMessage ?m ?x)] =>
            pose proof (owed_sendMessage id m x);
            generalize dependent (_sendMessage m x); intros
        | |- context [owed id (with_tabIdToTargetId ?m ?x)] =>
            rewrite (owed_same id x (with_tabIdToTargetId m x)) by reflexivity
        | |- context [owed id (with_mainTabTargetId ?m ?x)] =>
            rewrite (owed_same id x (with_mainTabTargetId m x)) by reflexivity
        | |- context [owed id (with_childTabs ?m ?x)] =>
            rewrite (owed_same id x (with_childTabs m x)) by reflexivity
        | H : context [owed id (with_tabIdToTargetId ?m ?x)] |- _ =>
            rewrite (owed_same id x (with_tabIdToTargetId m x)) in H by reflexivity
        | H : context [owed id (with_mainTabTargetId ?m ?x)] |- _ =>
            rewrite (owed_same id x (with_mainTabTargetId m x)) in H by reflexivity
        | H : context [owed id (with_childTabs ?m ?x)] |- _ =>
            rewrite (owed_same id x (with_childTabs m x)) in H by reflexivity
        end ];
    unfold awaits, answers in *; simpl in *; lia.
Qed.

Lemma owed_forwardCDPCommand id id' p c :
  (owed id (forwardCDPCommand id' p c) <= owed id c + Nat.b2n (Z.eqb id id'))%nat.
Proof.
  destruct (forwardCDPCommand_cases id' p c)
    as [(m & _ & ->) | [(n & ->) | (target & ->)]].
  - apply owed_respond.
  - rewrite owed_call by reflexivity. apply Nat.le_refl.
  - rewrite owed_call by reflexivity. apply Nat.le_refl.
Qed.

Lemma owed_attachToTab id id' c :
  owed id (attachToTab id' c) = (owed id c + Nat.b2n (Z.eqb id id'))%nat.
Proof. unfold attachToTab. now rewrite owed_call by reflexivity. Qed.

(** A command is taken in once: it waits, is suspended or is answered. *)
Lemma owed_handleCommand id message c :
  (owed id (_handleCommand message c)
   <= owed id c + Nat.b2n (Z.eqb id (cmd_id message)))%nat.
Proof.
  unfold _handleCommand.
  repeat match goal with
         | |- context [if ?b then _ else _] => destruct b
         end;
    try apply owed_respond.
  - rewrite owed_attachToTab. apply Nat.le_refl.
  - unfold owed. simpl. rewrite List.filter_app, length_app. simpl.
    destruct (Z.eqb id (cmd_id message)); simpl; lia.
  - apply owed_forwardCDPCommand.
Qed.

Lemma owed_waiters id ids : forall c,
  owed id (fold_left (fun acc id' => attachToTab id' acc) ids c)
  = (owed id c + length (List.filter (Z.eqb id) ids))%nat.
Proof.
  induction ids as [| id' ids IH]; intros c; simpl; [lia |].
  rewrite IH, owed_attachToTab. destruct (Z.eqb id id'); simpl; lia.
Qed.

(** Selecting the tab moves the waiting commands to their attach calls. *)
Lemma owed_setTabId id tabId c : owed id (setTabId tabId c) = owed id c.
Proof.
  unfold setTabId. rewrite owed_waiters.
  assert (H : forall x, (owed id (with_bind_waiters [] x)
                         + length (List.filter (Z.eqb id) (bind_waiters x)))%nat
                        = owed id x).
  { intros x. unfold owed. simpl. lia. }
  rewrite H. unfold _checkForExistingChildTabs.
  match goal with |- context [if ?b then _ else _] => destruct b end;
    [| rewrite owed_call by reflexivity; simpl; rewrite Nat.add_0_r];
    apply owed_same; reflexivity.
Qed.

Lemma no_send_no_answer id es :
  Forall (fun e => is_send e = false) es -> count_effect (answers id) es = 0%nat.
Proof.
  intros H. apply count_effect_none. revert H. apply List.Forall_impl.
  intros [] He; try reflexivity; discriminate.
Qed.

Lemma onClose_bind_waiters c : bind_waiters (_onClose c) = bind_waiters c.
Proof.
  unfold _onClose. destruct (_closed c); [reflexivity |].
  simpl. now destruct (onclose c).
Qed.

(** The teardown answers nothing and drops nothing that is owed. *)
Lemma owed_onClose id c : owed id (_onClose c) = owed id c.
Proof.
  unfold owed.
  rewrite onClose_bind_waiters, onClose_pending, onClose_trace, count_effect_app.
  rewrite (no_send_no_answer id (if _closed c then [] else teardown_effects c)).
  - lia.
  - destruct (_closed c); [constructor | apply teardown_effects_no_send].
Qed.

Lemma owed_close id message c : owed id (close message c) = owed id c.
Proof.
  unfold close. rewrite owed_onClose.
  rewrite (owed_same id (emit (WsClose 1000 message) c)) by reflexivity.
  rewrite owed_emit. simpl. lia.
Qed.

Lemma owed_event id m c :
  answers id (WsSend (JSON_stringify m)) = false ->
  owed id (_sendMessage m c) = owed id c.
Proof.
  intros H. unfold _sendMessage. destruct (ws_open c); [| reflexivity].
  rewrite owed_emit, H. simpl. lia.
Qed.

Lemma owed_child_gone id tabId c : owed id (child_gone tabId c) = owed id c.
Proof.
  unfold child_gone. rewrite owed_event by reflexivity.
  apply owed_same; reflexivity.
Qed.

Lemma filter_delete_length {A} (p : A -> bool) (l : list A) : forall k x,
  l !! k = Some x ->
  (length (List.filter p (delete k l)) + Nat.b2n (p x))%nat
  = length (List.filter p l).
Proof.
  induction l as [| y l IH]; intros [| k] x H; try discriminate; simpl in *.
  - injection H as ->. destruct (p x); simpl; lia.
  - specialize (IH k x H). destruct (p y); simpl; lia.
Qed.

(** Taking a suspended method off the list takes its command with it. *)
Lemma owed_resumed id k cont c :
  pending c !! k = Some cont ->
  (owed id (with_pending (delete k (pending c)) c) + Nat.b2n (awaits id cont))%nat
  = owed id c.
Proof.
  intros H. unfold owed. simpl.
  pose proof (filter_delete_length (awaits id) (pending c) k cont H). lia.
Qed.

(** A turn takes in the command it delivers and no other. *)
Lemma owed_step id c e :
  (owed id (step c e) <= owed id c + commands_with id [e])%nat.
Proof.
  destruct e; cbn [step]; unfold commands_with; cbn [command_ids flat_map].
  - rewrite owed_setTabId. lia.
  - rewrite owed_close. lia.
  - rewrite owed_onClose. rewrite (owed_same id c) by reflexivity. lia.
  - destruct (ws_open c) eqn:Hws; [| lia]. destruct data as [m | message]; simpl.
    + unfold _sendError. rewrite owed_event by reflexivity. lia.
    + pose proof (owed_handleCommand id message c).
      destruct (Z.eqb id (cmd_id message)); simpl in *; lia.
  - destruct (listening c); [| lia]. unfold _onDebuggerEvent.
    match goal with |- context [if ?b then _ else _] => destruct b end; [lia |].
    rewrite owed_event by reflexivity. lia.
  - destruct (listening c); [| lia]. unfold _onDebuggerDetach.
    destruct (strict_eq source (_debuggee c)).
    + rewrite (owed_same id (close ("Debugger detached: " +:+ reason) c))
        by reflexivity.
      rewrite owed_close. lia.
    + destruct (truthy_num source && Set_has source (_childTabs c)); [| lia].
      destruct source; [rewrite owed_child_gone |]; lia.
  - destruct (listening c); [| lia]. unfold _onTabCreated.
    repeat match goal with
           | |- context [if ?b then _ else _] => destruct b
           | |- context [match ?x with _ => _ end] => destruct x
           end; try lia.
    rewrite owed_suspend, owed_emit. simpl. lia.
  - destruct (listening c); [| lia]. unfold _onTabRemoved.
    destruct (Set_has (Some tabId) (_childTabs c));
      [rewrite owed_child_gone |]; lia.
  - destruct (pending c !! k) as [cont |] eqn:Hk; [| lia].
    destruct (resume cont r _) as [c' |] eqn:Hr; [| lia].
    pose proof (owed_resume id _ _ _ _ Hr).
    pose proof (owed_resumed id k cont c Hk). lia.
  - destruct (pending c !! k) as [cont |] eqn:Hk; [| lia].
    destruct cont; try lia.
    rewrite owed_attachToNewTab.
    pose proof (owed_resumed id k _ c Hk). simpl in *. lia.
Qed.

Lemma commands_with_app id events1 events2 :
  commands_with id (events1 ++ events2)
  = (commands_with id events1 + commands_with id events2)%nat.
Proof.
  unfold commands_with. now rewrite command_ids_app, List.filter_app, length_app.
Qed.

Lemma owed_run id events : forall c,
  (owed id (run c events) <= owed id c + commands_with id events)%nat.
Proof.
  induction events as [| e events IH]; intros c.
  - unfold commands_with. simpl. lia.
  - rewrite run_cons. specialize (IH (step c e)).
    pose proof (owed_step id c e).
    change (e :: events) with ([e] ++ events). rewrite commands_with_app. lia.
Qed.

(** *** While the socket is open *)

Lemma owed_respond_open id id' o c :
  ws_open c = true ->
  owed id (respond id' o c) = (owed id c + Nat.b2n (Z.eqb id id'))%nat.
Proof.
  intros H. rewrite respond_open by exact H.
  now rewrite owed_emit, answers_response.
Qed.

Lemma owed_resume_open id k r c c' :
  ws_open c = true ->
  resume k r c = Some c' ->
  owed id c' = (owed id c + Nat.b2n (awaits id k))%nat.
Proof.
  intros Hws Hr.
  destruct k, r; simpl in Hr; try discriminate;
    repeat match type of Hr with
           | context [match ?x with _ => _ end] => destruct x
           end;
    try discriminate; injection Hr as <-;
    unfold getTargetInfo;
    repeat first
      [ rewrite owed_returned
      | rewrite owed_sweep
      | rewrite owed_call by reflexivity
      | rewrite owed_respond_open by exact Hws
      | rewrite owed_event by reflexivity
      | match goal with
        | |- context [owed id (with_tabIdToTargetId ?m ?x)] =>
            rewrite (owed_same id x (with_tabIdToTargetId m x)) by reflexivity
        | |- context [owed id (with_mainTabTargetId ?m ?x)] =>
            rewrite (owed_same id x (with_mainTabTargetId m x)) by reflexivity
        | |- context [owed id (with_childTabs ?m ?x)] =>
            rewrite (owed_same id x (with_childTabs m x)) by reflexivity
        end ];
    unfold awaits; simpl; lia.
Qed.

Lemma owed_forwardCDPCommand_open id id' p c :
  ws_open c = true ->
  owed id (forwardCDPCommand id' p c) = (owed id c + Nat.b2n (Z.eqb id id'))%nat.
Proof.
  intros Hws.
  destruct (forwardCDPCommand_cases id' p c)
    as [(m & _ & ->) | [(n & ->) | (target & ->)]].
  - now apply owed_respond_open.
  - now rewrite owed_call by reflexivity.
  - now rewrite owed_call by reflexivity.
Qed.

Lemma owed_handleCommand_open id message c :
  ws_open c = true ->
  owed id (_handleCommand message c)
  = (owed id c + Nat.b2n (Z.eqb id (cmd_id message)))%nat.
Proof.
  intros Hws. unfold _handleCommand.
  repeat match goal with
         | |- context [if ?b then _ else _] => destruct b
         end;
    try (now apply owed_respond_open).
  - apply owed_attachToTab.
  - unfold owed. simpl. rewrite List.filter_app, length_app. simpl.
    destruct (Z.eqb id (cmd_id message)); simpl; lia.
  - now apply owed_forwardCDPCommand_open.
Qed.

(** While the socket is open a turn takes in exactly the command it
    delivers. *)
Lemma owed_step_open id c e :
  ws_open c = true ->
  owed id (step c e) = (owed id c + commands_with id [e])%nat.
Proof.
  intros Hws.
  destruct e; cbn [step]; unfold commands_with; cbn [command_ids flat_map].
  - rewrite owed_setTabId. simpl. lia.
  - rewrite owed_close. simpl. lia.
  - rewrite owed_onClose. rewrite (owed_same id c) by reflexivity. simpl. lia.
  - rewrite Hws. destruct data as [m | message]; simpl.
    + unfold _sendError. rewrite owed_event by reflexivity. lia.
    + rewrite owed_handleCommand_open by exact Hws.
      destruct (Z.eqb id (cmd_id message)); simpl; lia.
  - simpl. destruct (listening c); [| lia]. unfold _onDebuggerEvent.
    match goal with |- context [if ?b then _ else _] => destruct b end; [lia |].
    rewrite owed_event by reflexivity. lia.
  - simpl. destruct (listening c); [| lia]. unfold _onDebuggerDetach.
    destruct (strict_eq source (_debuggee c)).
    + rewrite (owed_same id (close ("Debugger detached: " +:+ reason) c))
        by reflexivity.
      rewrite owed_close. lia.
    + destruct (truthy_num source && Set_has source (_childTabs c)); [| lia].
      destruct source; [rewrite owed_child_gone |]; lia.
  - simpl. destruct (listening c); [| lia]. unfold _onTabCreated.
    repeat match goal with
           | |- context [if ?b then _ else _] => destruct b
           | |- context [match ?x with _ => _ end] => destruct x
           end; try lia.
    rewrite owed_suspend, owed_emit. simpl. lia.
  - simpl. destruct (listening c); [| lia]. unfold _onTabRemoved.
    destruct (Set_has (Some tabId) (_childTabs c));
      [rewrite owed_child_gone |]; lia.
  - simpl. destruct (pending c !! k) as [cont |] eqn:Hk; [| lia].
    destruct (resume cont r _) as [c' |] eqn:Hr; [| lia].
    assert (Hws' : ws_open (with_pending (delete k (pending c)) c) = true)
      by exact Hws.
    pose proof (owed_resume_open id _ _ _ _ Hws' Hr).
    pose proof (owed_resumed id k cont c Hk). lia.
  - simpl. destruct (pending c !! k) as [cont |] eqn:Hk; [| lia].
    destruct cont; try lia.
    rewrite owed_attachToNewTab.
    pose proof (owed_resumed id k _ c Hk). simpl in *. lia.
Qed.

(** A socket that is not open stays so. *)
Lemma not_open_run events : forall c,
  ws_open c = false -> ws_open (run c events) = false.
Proof.
  induction events as [| e events IH]; intros c Hws; simpl; [exact Hws |].
  apply IH. now destruct (silent_step c e Hws).
Qed.

Lemma open_before events c : ws_open (run c events) = true -> ws_open c = true.
Proof.
  intros H. destruct (ws_open c) eqn:Hws; [reflexivity |].
  now rewrite (not_open_run events c Hws) in H.
Qed.

Lemma owed_run_open id events : forall c,
  ws_open (run c events) = true ->
  owed id (run c events) = (owed id c + commands_with id events)%nat.
Proof.
  induction events as [| e events IH]; intros c Hws.
  - unfold commands_with. simpl. lia.
  - rewrite run_cons in *. rewrite (IH (step c e) Hws).
    pose proof (open_before events _ Hws) as Hws1.
    rewrite (owed_step_open id c e).
    + change (e :: events) with ([e] ++ events). rewrite commands_with_app. lia.
    + apply (open_before [e]). exact Hws1.
Qed.

(** ** The entry of a child in the target map *)










(** ** Session identifiers of children *)

(** X1: the session identifier derived from a child's tab identifier can be
    read back: it starts with "tab-" and [parseInt] of the rest is the tab
    identifier, for every integer; so different tabs never share a session
    identifier. *)
Theorem session_id_round_trip :
  (forall n,
     String.prefix "tab-" (tab_session_id n) = true
     /\ parseInt (substring_from 4 (tab_session_id n)) = Some n)
  /\ (forall n m, n <> m -> tab_session_id n <> tab_session_id m).
Proof.
  assert (Hback : forall n, parseInt (substring_from 4 (tab_session_id n)) = Some n).
  { intros n. unfold tab_session_id. rewrite substring_tab.
    apply parseInt_number_to_string. }
  split.
  - intros n. split; [apply prefix_tab | apply Hback].
  - intros n m Hne Heq. apply Hne.
    pose proof (Hback n) as Hn. rewrite Heq, Hback in Hn. congruence.
Qed.

Lemma session_id_round_trip_witness : tab_session_id 2 <> tab_session_id 12.
Proof. apply (proj2 session_id_round_trip 2 12). lia. Defined.

(** ** Relaying Chrome's events *)

(** X2: an event from a tab that is neither the selected tab nor a known
    child is dropped.  An event of the selected tab is relayed with the
    session identifier Chrome gave it, its method and its parameters.  In no
    case does an event change anything but what is sent. *)
Theorem event_relayed_or_dropped c source method params :
  listening c = true ->
  ws_open c = true ->
  let c' := step c (DebuggerOnEvent source method params) in
  (ds_tabId source <> _debuggee c ->
   Set_has (ds_tabId source) (_childTabs c) = false -> c' = c)
  /\ (ds_tabId source = _debuggee c ->
      c' = emit (WsSend (JSON_stringify
                           (forwardCDPEvent
                              [("sessionId", ds_sessionId source);
                               ("method", JStr method); ("params", params)]))) c)
  /\ (c' = c \/ exists doc, c' = emit (WsSend doc) c).
Proof.
  intros Hl Hws c'. subst c'. simpl. rewrite Hl. unfold _onDebuggerEvent.
  split; [| split].
  - intros Hne Hhas. now rewrite (strict_eq_false _ _ Hne), Hhas.
  - intros Heq. rewrite Heq, strict_eq_refl. simpl.
    unfold _sendMessage. now rewrite Hws.
  - match goal with |- context [if ?b then _ else _] => destruct b end;
      [now left |].
    right. unfold _sendMessage. rewrite Hws. eauto.
Qed.

Lemma event_relayed_or_dropped_witness :
  let c := run (constructor true) popup_attached in
  step c (DebuggerOnEvent (debuggee_session (Some 7)) "Page.loadEventFired" (JObj []))
  = c
  /\ step c (DebuggerOnEvent {| ds_tabId := Some 1; ds_sessionId := JStr "S" |}
               "Page.loadEventFired" (JObj []))
     = emit (WsSend (JSON_stringify
                       (forwardCDPEvent
                          [("sessionId", JStr "S");
                           ("method", JStr "Page.loadEventFired");
                           ("params", JObj [])]))) c.
Proof.
  intros c. split.
  - refine (proj1 (event_relayed_or_dropped c (debuggee_session (Some 7))
                     "Page.loadEventFired" (JObj []) _ _) _ _).
    + vm_compute. reflexivity.
    + vm_compute. reflexivity.
    + vm_compute. discriminate.
    + vm_compute. reflexivity.
  - refine (proj1 (proj2 (event_relayed_or_dropped c
                            {| ds_tabId := Some 1; ds_sessionId := JStr "S" |}
                            "Page.loadEventFired" (JObj []) _ _)) _).
    + vm_compute. reflexivity.
    + vm_compute. reflexivity.
    + vm_compute. reflexivity.
Defined.

(** X3: an event of a known child is relayed under the session identifier
    "tab-N" of its tab, and a command forwarded with that session
    identifier is issued against that same tab: the identifier the relay
    hands out leads back to the child. *)
Theorem child_session_leads_back c source method params tabId id props :
  listening c = true ->
  ws_open c = true ->
  truthy_num (_debuggee c) = true ->
  ds_tabId source = Some tabId ->
  tabId <> 0 ->
  _debuggee c <> Some tabId ->
  In tabId (_childTabs c) ->
  assoc "sessionId" props = JStr (tab_session_id tabId) ->
  is_string "Target.detachFromTarget" (assoc "method" props) = false ->
  step c (DebuggerOnEvent source method params)
  = emit (WsSend (JSON_stringify
                    (forwardCDPEvent
                       [("sessionId", JStr (tab_session_id tabId));
                        ("method", JStr method); ("params", params)]))) c
  /\ sends_to (Some tabId) id (assoc "method" props) (assoc "params" props) c
       (step c (WsOnMessage (Parsed {| cmd_id := id; cmd_method := "forwardCDPCommand";
                                       cmd_params := JObj props |}))).
Proof.
  intros Hl Hws Ht Hsrc Hnz Hne Hin Hs Hm. split.
  - simpl. rewrite Hl. unfold _onDebuggerEvent. rewrite Hsrc.
    assert (Hse : strict_eq (Some tabId) (_debuggee c) = false)
      by (apply strict_eq_false; congruence).
    apply Set_has_In in Hin. rewrite Hse, Hin. simpl.
    apply Z.eqb_neq in Hnz. rewrite Hnz. simpl.
    unfold _sendMessage. now rewrite Hws.
  - unfold sends_to. simpl. rewrite Hws. unfold _handleCommand. simpl.
    rewrite Ht. simpl. rewrite Hm, Hs. unfold tab_session_id.
    rewrite (route_command_child (number_to_string tabId) tabId c
               (parseInt_number_to_string tabId) Hin).
    eexists. reflexivity.
Qed.

Lemma child_session_leads_back_witness :
  let c := run (constructor true) popup_attached in
  step c (DebuggerOnEvent (debuggee_session (Some 2)) "Page.loadEventFired" (JObj []))
  = emit (WsSend (JSON_stringify
                    (forwardCDPEvent
                       [("sessionId", JStr (tab_session_id 2));
                        ("method", JStr "Page.loadEventFired");
                        ("params", JObj [])]))) c
  /\ sends_to (Some 2) 7 (JStr "Runtime.enable") JUndefined c
       (step c (WsOnMessage (forward 7 (JStr "tab-2") (JStr "Runtime.enable") JUndefined))).
Proof.
  intros c.
  refine (child_session_leads_back c (debuggee_session (Some 2)) "Page.loadEventFired"
            (JObj []) 2 7
            [("sessionId", JStr "tab-2"); ("method", JStr "Runtime.enable");
             ("params", JUndefined)] _ _ _ _ _ _ _ _ _).
  - vm_compute. reflexivity.
  - vm_compute. reflexivity.
  - vm_compute. reflexivity.
  - reflexivity.
  - lia.
  - vm_compute. discriminate.
  - vm_compute. left. reflexivity.
  - vm_compute. reflexivity.
  - vm_compute. reflexivity.
Defined.

(** ** Children that go away *)

(** X4: Chrome reports a closed child tab twice, as a debugger detach and
    as a removed tab.  Whichever comes first removes the child from the
    child set and sends one [Target.detachedFromTarget] event; after it the
    tab is no child, and the other notification, or a repetition, changes
    nothing and sends nothing. *)
Theorem child_goes_once c tabId reason :
  listening c = true ->
  tabId <> 0 ->
  _debuggee c <> Some tabId ->
  let detached := step c (DebuggerOnDetach (Some tabId) reason) in
  let removed := step c (TabsOnRemoved tabId) in
  detached = removed
  /\ ~ In tabId (_childTabs removed)
  /\ step removed (TabsOnRemoved tabId) = removed
  /\ step removed (DebuggerOnDetach (Some tabId) reason) = removed
  /\ (In tabId (_childTabs c) -> ws_open c = true ->
      trace removed
      = trace c
        ++ [WsSend (JSON_stringify
                      (detachedFromTarget
                         (js_or (Map_get (Some tabId) (_tabIdToTargetId c))
                                (JStr (tab_session_id tabId)))))]
      /\ _tabIdToTargetId removed !! Some tabId = None)
  /\ (~ In tabId (_childTabs c) -> removed = c).
Proof.
  intros Hl Hnz Hne detached removed.
  assert (Hse : forall c0, _debuggee c0 = _debuggee c ->
                  strict_eq (Some tabId) (_debuggee c0) = false)
    by (intros c0 ->; apply strict_eq_false; congruence).
  assert (Hz : negb (tabId =? 0) = true) by (apply negb_true_iff, Z.eqb_neq, Hnz).
  assert (Hrem : removed = if Set_has (Some tabId) (_childTabs c)
                           then child_gone tabId c else c)
    by (subst removed; simpl; now rewrite Hl).
  assert (Hdet : detached = removed).
  { rewrite Hrem. subst detached. simpl. rewrite Hl. unfold _onDebuggerDetach.
    rewrite (Hse c eq_refl). simpl. rewrite Hz. simpl.
    now destruct (existsb (Z.eqb tabId) (_childTabs c)). }
  assert (Hfields : listening removed = true /\ _debuggee removed = _debuggee c
                    /\ Set_has (Some tabId) (_childTabs removed) = false).
  { rewrite Hrem. destruct (Set_has (Some tabId) (_childTabs c)) eqn:Hhas.
    - destruct (child_gone_fields tabId c) as (-> & -> & ->).
      split; [exact Hl | split; [reflexivity | apply Set_has_delete]].
    - repeat split; auto. }
  destruct Hfields as (Hl' & Hd' & Hhas').
  clearbody detached removed.
  split; [exact Hdet |]. split; [| split; [| split; [| split]]].
  - intros Hin. apply Set_has_In in Hin. congruence.
  - cbn [step]. rewrite Hl'. unfold _onTabRemoved. now rewrite Hhas'.
  - cbn [step]. rewrite Hl'. unfold _onDebuggerDetach.
    rewrite (Hse removed Hd'), Hhas'. now rewrite andb_false_r.
  - intros Hin Hws. apply Set_has_In in Hin. rewrite Hrem, Hin.
    unfold child_gone, _sendMessage. simpl. rewrite Hws. simpl.
    split; [reflexivity | apply lookup_delete_eq].
  - intros Hnot. rewrite Hrem.
    destruct (Set_has (Some tabId) (_childTabs c)) eqn:Hhas; [| reflexivity].
    apply Set_has_In in Hhas. contradiction.
Qed.

Lemma child_goes_once_witness :
  let c := run (constructor true) popup_attached in
  let removed := step c (TabsOnRemoved 2) in
  step c (DebuggerOnDetach (Some 2) "target_closed") = removed
  /\ step removed (DebuggerOnDetach (Some 2) "target_closed") = removed
  /\ trace removed
     = trace c
       ++ [WsSend (JSON_stringify
                     (detachedFromTarget
                        (js_or (Map_get (Some 2) (_tabIdToTargetId c))
                               (JStr (tab_session_id 2)))))].
Proof.
  intros c removed.
  assert (H := child_goes_once c 2 "target_closed").
  destruct H as (Hsame & _ & _ & Hagain & Hsent & _).
  - vm_compute. reflexivity.
  - lia.
  - vm_compute. discriminate.
  - split; [exact Hsame |]. split; [exact Hagain |].
    apply Hsent.
    + vm_compute. left. reflexivity.
    + vm_compute. reflexivity.
Defined.

(** ** Open and closed *)

(** X5: over every history, Chrome's listeners are registered exactly while
    the connection is not closed, and a closed connection has a socket that
    is not open. *)
Theorem listeners_follow_closed handler events :
  let c := run (constructor handler) events in
  listening c = negb (_closed c) /\ (_closed c = true -> ws_open c = false).
Proof.
  intros c.
  assert (H : open_or_closed c) by (apply open_or_closed_run; split; reflexivity).
  destruct H as (Hl & Hws). split; [exact Hl |].
  intros Hc. now rewrite Hws, Hc.
Qed.

(** X6: closing is final.  Whatever happens after a connection is closed
    (promises that settle, notifications from Chrome, messages, further
    calls of [close] or [setTabId]), it stays closed, its listeners stay
    removed, and nothing more is written to the socket. *)
Theorem nothing_sent_after_close handler before after :
  let c := run (constructor handler) before in
  _closed c = true ->
  let c' := run c after in
  _closed c' = true
  /\ listening c' = false
  /\ List.filter is_send (trace c') = List.filter is_send (trace c).
Proof.
  intros c Hc c'.
  assert (Hoc : open_or_closed c) by (apply open_or_closed_run; split; reflexivity).
  assert (Hws : ws_open c = false) by (destruct Hoc as (_ & ->); now rewrite Hc).
  destruct (silent_run after c Hws) as (Hsame & Hclosed).
  assert (Hoc' : open_or_closed c') by (now apply open_or_closed_run).
  pose proof (Hclosed Hc) as Hc'. fold c' in Hc'.
  split; [exact Hc' |]. split; [| exact Hsame].
  destruct Hoc' as (Hl & _). now rewrite Hl, Hc'.
Qed.

Lemma nothing_sent_after_close_witness :
  let c := run (constructor true) (popup_found ++ [Close "done"]) in
  let c' := run c after_close in
  _closed c' = true
  /\ listening c' = false
  /\ List.filter is_send (trace c') = List.filter is_send (trace c).
Proof.
  refine (nothing_sent_after_close true (popup_found ++ [Close "done"]) after_close _).
  vm_compute. reflexivity.
Defined.

(** ** The identifier of a child *)



(** The condition is needed.  The popup is announced as "T2"; then its tab
    is selected as the primary one and [attachToTab] records the descriptor
    "Z" of the selected tab under the same key: the removal of the tab is
    reported with "Z". *)
Lemma identifier_replaced_by_attachToTab :
  let c := run (constructor true) popup_selected in
  untouched 2 (run (constructor true) popup_attached)
    (skipn (length popup_attached) popup_selected) = false
  /\ In 2 (_childTabs c)
  /\ trace (step c (TabsOnRemoved 2))
     = trace c ++ [WsSend (detachedFromTarget (JStr "Z"))].
Proof. split; [| split]; vm_compute; auto. Qed.

(** ** The sweep for existing children *)

(** X8: the sweep of [_checkForExistingChildTabs] goes through the tabs
    Chrome lists in order.  It passes over every tab that has no
    identifier, was not opened by the selected tab, or is already a child,
    and over every tab when the connection is closed; it calls
    [chrome.debugger.attach] for the first tab that remains and suspends
    there, keeping the tabs after it for later.  When that attach call
    fails, the sweep goes on with the tabs it kept. *)
Theorem sweep_attaches_in_order :
  (forall c k tabs,
     pending c !! k = Some AwaitTabsQuery ->
     step c (Settled k (FulfilledTabs tabs))
     = sweep tabs (with_pending (delete k (pending c)) c))
  /\ (forall c tabs,
        Forall (fun tab => attachable c tab = false) tabs -> sweep tabs c = c)
  /\ (forall c skipped tab tabId rest,
        Forall (fun t => attachable c t = false) skipped ->
        attachable c tab = true -> tab_id tab = Some tabId ->
        sweep (skipped ++ tab :: rest) c
        = suspend (AwaitChildAttach tabId (FromSweep rest))
            (emit (ChromeDebuggerAttach (Some tabId)) c))
  /\ (forall c tabs, _closed c = true -> sweep tabs c = c)
  /\ (forall c k tabId rest message,
        pending c !! k = Some (AwaitChildAttach tabId (FromSweep rest)) ->
        step c (Settled k (Rejected message))
        = sweep rest (with_pending (delete k (pending c)) c)).
Proof.
  split; [| split; [| split; [| split]]].
  - intros c k tabs Hk. apply (step_settled k _ _ _ _ Hk). reflexivity.
  - intros c tabs. apply sweep_skips.
  - intros c skipped tab tabId rest. apply sweep_reaches.
  - intros c tabs Hc. apply sweep_skips.
    induction tabs as [| tab tabs IH]; constructor; [| exact IH].
    unfold attachable, attach_skipped. rewrite Hc.
    destruct (tab_id tab); apply andb_false_intro2; reflexivity.
  - intros c k tabId rest message Hk. apply (step_settled k _ _ _ _ Hk). reflexivity.
Qed.

Lemma sweep_attaches_in_order_witness :
  let c := run (constructor true) [SetTabId 1] in
  let other := {| tab_id := Some 5; tab_openerTabId := Some 9;
                  tab_url := JUndefined; tab_title := JUndefined |} in
  step c (Settled 0 (FulfilledTabs [other; popup; other]))
  = sweep [other; popup; other] (with_pending (delete 0%nat (pending c)) c)
  /\ sweep ([other] ++ popup :: [other]) c
     = suspend (AwaitChildAttach 2 (FromSweep [other]))
         (emit (ChromeDebuggerAttach (Some 2)) c).
Proof.
  intros c other. split.
  - refine (proj1 sweep_attaches_in_order c 0%nat [other; popup; other] _).
    vm_compute. reflexivity.
  - refine (proj1 (proj2 (proj2 sweep_attaches_in_order)) c [other] popup 2 [other] _ _ _).
    + repeat constructor.
    + vm_compute. reflexivity.
    + reflexivity.
Defined.

(** ** Messages that are no commands *)

(** X9: text that is no JSON never reaches Chrome and changes nothing: for
    each such message the relay sends one error document with the code
    -32700 and the parser's message, which carries no identifier. *)
Theorem malformed_messages_answered c texts :
  ws_open c = true ->
  run c (malformed texts)
  = emit_all (List.map (fun message => WsSend (parse_error message)) texts) c
  /\ Forall (fun message => has_member "id" (parse_error message) = false) texts.
Proof.
  intros Hws. split.
  - revert c Hws. induction texts as [| message texts IH]; intros c Hws.
    + simpl. now rewrite emit_all_nil.
    + unfold malformed. rewrite map_cons, run_cons. fold (malformed texts).
      assert (Hstep : step c (WsOnMessage (Unparseable message))
                      = emit (WsSend (parse_error message)) c).
      { simpl. rewrite Hws. unfold _sendError, _sendMessage. now rewrite Hws. }
      rewrite Hstep, IH by exact Hws. simpl. apply emit_all_cons.
  - induction texts; constructor; auto.
Qed.

Lemma malformed_messages_answered_witness :
  run (constructor true) (malformed ["{"; "nil"])
  = emit_all [WsSend (parse_error "{"); WsSend (parse_error "nil")] (constructor true).
Proof.
  exact (proj1 (malformed_messages_answered (constructor true) ["{"; "nil"] eq_refl)).
Defined.

(** X10: with a tab selected, a [forwardCDPCommand] is answered with an
    error, nothing is sent to Chrome and nothing else changes, in three
    cases: it has no parameters; its method is not
    [Target.detachFromTarget] and its session identifier is neither falsy
    nor a string; its method is [Target.detachFromTarget] and the session
    identifier inside its own parameters is neither falsy nor a string (the
    outer one is not looked at then). *)
Theorem forward_with_bad_parameters_fails c id :
  ws_open c = true ->
  truthy_num (_debuggee c) = true ->
  let fails p :=
    exists message,
      step c (WsOnMessage (Parsed {| cmd_id := id; cmd_method := "forwardCDPCommand";
                                     cmd_params := p |}))
      = emit (WsSend (JObj [("id", JNum id); ("error", JStr message)])) c in
  (forall p, p = JUndefined \/ p = JNull -> fails p)
  /\ (forall props,
        is_string "Target.detachFromTarget" (assoc "method" props) = false ->
        truthy (assoc "sessionId" props) = true ->
        (forall s, assoc "sessionId" props <> JStr s) ->
        fails (JObj props))
  /\ (forall props,
        is_string "Target.detachFromTarget" (assoc "method" props) = true ->
        let named := get_prop "sessionId" (js_or (assoc "params" props) (JObj [])) in
        truthy named = true ->
        (forall s, named <> JStr s) ->
        fails (JObj props)).
Proof.
  intros Hws Ht fails. split; [| split].
  - intros p [-> | ->]; eexists; simpl; rewrite Hws; unfold _handleCommand; simpl;
      rewrite Ht; simpl; unfold forwardCDPCommand;
      rewrite respond_open by exact Hws; reflexivity.
  - intros props Hm Hs Hnot. eexists. simpl. rewrite Hws. unfold _handleCommand.
    simpl. rewrite Ht. simpl. rewrite Hm. unfold route_command. rewrite Hs.
    destruct (assoc "sessionId" props) eqn:E;
      try (rewrite respond_open by exact Hws; reflexivity).
    now destruct (Hnot s).
  - intros props Hm named Hs Hnot. eexists. simpl. rewrite Hws.
    unfold _handleCommand. simpl. rewrite Ht. simpl. rewrite Hm.
    unfold route_detach. fold named. rewrite Hs.
    destruct named eqn:E;
      try (rewrite respond_open by exact Hws; reflexivity).
    now destruct (Hnot s).
Qed.

Lemma forward_with_bad_parameters_fails_witness :
  let c := run (constructor true) popup_attached in
  (exists message,
     step c (WsOnMessage (forward 4 (JNum 2) (JStr "Runtime.enable") JUndefined))
     = emit (WsSend (JObj [("id", JNum 4); ("error", JStr message)])) c)
  /\ (exists message,
        step c (WsOnMessage
                  (forward 5 (JStr "tab-2") (JStr "Target.detachFromTarget")
                     (JObj [("sessionId", JNum 2)])))
        = emit (WsSend (JObj [("id", JNum 5); ("error", JStr message)])) c).
Proof.
  intros c. split.
  - refine (proj1 (proj2 (forward_with_bad_parameters_fails c 4 _ _))
              [("sessionId", JNum 2); ("method", JStr "Runtime.enable");
               ("params", JUndefined)] _ _ _).
    + vm_compute. reflexivity.
    + vm_compute. reflexivity.
    + vm_compute. reflexivity.
    + vm_compute. reflexivity.
    + intros s. vm_compute. discriminate.
  - refine (proj2 (proj2 (forward_with_bad_parameters_fails c 5 _ _))
              [("sessionId", JStr "tab-2"); ("method", JStr "Target.detachFromTarget");
               ("params", JObj [("sessionId", JNum 2)])] _ _ _).
    + vm_compute. reflexivity.
    + vm_compute. reflexivity.
    + vm_compute. reflexivity.
    + vm_compute. reflexivity.
    + intros s. vm_compute. discriminate.
Defined.

(** ** Binding to the selected tab *)

(** X11: an [attachToTab] command received while a tab is selected calls
    [chrome.debugger.attach] on that tab.  When the call is rejected the
    command fails with Chrome's message and nothing else is called or
    recorded.  When it is fulfilled the relay asks for
    [Target.getTargetInfo] and answers with the descriptor Chrome returns;
    it records the descriptor's [targetId] as the identifier of the primary
    target, and in the target map under the selected tab, only when the
    descriptor has one. *)
Theorem attachToTab_answers_with_descriptor c id :
  ws_open c = true ->
  tab_selected c = true ->
  let n := length (pending c) in
  let c1 := step c (WsOnMessage (attach_to_tab id)) in
  (forall message,
     let failed := step c1 (Settled n (Rejected message)) in
     trace failed
     = trace c ++ [ChromeDebuggerAttach (_debuggee c);
                   WsSend (JObj [("id", JNum id); ("error", JStr message)])]
     /\ pending failed = pending c
     /\ bookkeeping failed = bookkeeping c
     /\ _mainTabTargetId failed = _mainTabTargetId c)
  /\ (forall v result,
        let targetInfo := opt_prop "targetInfo" result in
        let c3 := step (step c1 (Settled n (Fulfilled v))) (Settled n (Fulfilled result)) in
        trace c3
        = trace c ++ [ChromeDebuggerAttach (_debuggee c);
                      getTargetInfo (_debuggee c);
                      WsSend (JSON_stringify
                                (JObj [("id", JNum id);
                                       ("result", JObj [("targetInfo", targetInfo)])]))]
        /\ pending c3 = pending c
        /\ _childTabs c3 = _childTabs c
        /\ (if truthy (opt_prop "targetId" targetInfo)
            then _mainTabTargetId c3 = get_prop "targetId" targetInfo
                 /\ _tabIdToTargetId c3
                    = <[_debuggee c := get_prop "targetId" targetInfo]> (_tabIdToTargetId c)
            else _mainTabTargetId c3 = _mainTabTargetId c
                 /\ _tabIdToTargetId c3 = _tabIdToTargetId c)).
Proof.
  intros Hws Hsel n c1.
  assert (Hc1 : c1 = call (ChromeDebuggerAttach (_debuggee c)) (AwaitBindAttach id) c).
  { subst c1. rewrite step_attachToTab by exact Hws. now rewrite Hsel. }
  split.
  - intros message failed. subst failed n.
    erewrite (step_settled_last (pending c) (AwaitBindAttach id));
      [| rewrite Hc1; reflexivity | reflexivity].
    unfold respond, _sendMessage. rewrite Hc1. simpl. rewrite Hws. simpl.
    rewrite <- app_assoc. repeat split.
  - intros v result targetInfo c3. subst c3 n.
    erewrite (step_settled_last (pending c) (AwaitBindAttach id) (Fulfilled v) c1);
      [| rewrite Hc1; reflexivity | reflexivity].
    erewrite (step_settled_last (pending c) (AwaitBindInfo id));
      [| rewrite Hc1; reflexivity | reflexivity].
    fold targetInfo. rewrite Hc1.
    destruct (truthy (opt_prop "targetId" targetInfo));
      unfold respond, _sendMessage; simpl; rewrite Hws; simpl;
      rewrite <- !app_assoc; repeat split.
Qed.

Lemma attachToTab_answers_with_descriptor_witness :
  let c := run (constructor true) [SetTabId 1; Settled 0 (FulfilledTabs [])] in
  let c1 := step c (WsOnMessage (attach_to_tab 1)) in
  let c3 := step (step c1 (Settled 0 (Fulfilled JUndefined)))
              (Settled 0 (Fulfilled (target_info "T1" "B1"))) in
  trace c3
  = trace c ++ [ChromeDebuggerAttach (Some 1);
                getTargetInfo (Some 1);
                WsSend (JSON_stringify
                          (JObj [("id", JNum 1);
                                 ("result",
                                  JObj [("targetInfo",
                                         opt_prop "targetInfo" (target_info "T1" "B1"))])]))]
  /\ _mainTabTargetId c3 = JStr "T1".
Proof.
  intros c c1 c3.
  assert (H := attachToTab_answers_with_descriptor c 1).
  destruct H as (_ & Hok).
  - vm_compute. reflexivity.
  - vm_compute. reflexivity.
  - destruct (Hok JUndefined (target_info "T1" "B1")) as (Htrace & _ & _ & Hid).
    split; [exact Htrace | exact (proj1 Hid)].
Defined.

(** ** Tabs Chrome reports as created *)



(** X13: over every history and for every identifier, the responses sent
    with that identifier, together with the commands of that identifier
    still waiting for the tab or suspended at a call to Chrome, are at most
    as many as the commands received with it.  In particular the relay
    never answers a command twice, and never answers a command it did not
    receive. *)
Theorem command_answered_at_most_once handler events id :
  (owed id (run (constructor handler) events) <= commands_with id events)%nat
  /\ (count_effect (answers id) (trace (run (constructor handler) events))
      <= commands_with id events)%nat.
Proof.
  pose proof (owed_run id events (constructor handler)) as H.
  change (owed id (constructor handler)) with 0%nat in H.
  split; [lia |]. unfold owed in *. lia.
Qed.

(** X14: as long as the socket is open no command is lost: for every
    identifier, the commands received with it are exactly those waiting
    for the tab, suspended at a call to Chrome, or answered. *)
Theorem open_socket_loses_no_command handler events id :
  ws_open (run (constructor handler) events) = true ->
  owed id (run (constructor handler) events) = commands_with id events.
Proof.
  intros Hws. now rewrite owed_run_open.
Qed.

Lemma open_socket_loses_no_command_witness :
  owed 7 (run (constructor true)
            [SetTabId 1;
             WsOnMessage (forward 7 JUndefined (JStr "Page.enable") (JObj []));
             Settled 1 (Fulfilled (JObj []))])
  = 1%nat.
Proof.
  apply (open_socket_loses_no_command true
           [SetTabId 1;
            WsOnMessage (forward 7 JUndefined (JStr "Page.enable") (JObj []));
            Settled 1 (Fulfilled (JObj []))] 7).
  vm_compute. reflexivity.
Defined.
